(** * Liked-videos extractor: a shallow embedding of
      [youtube_extract_liked_videos.py] and the properties of its
      transcript resolver, existence checker, dual-store writer and
      run loop.

    The Python module is one class, [VideoProcessor], whose methods call
    five external services.  Methods become functions in a state-and-error
    monad: the state holds the contents of the two stores, the list of
    calls made to collaborators and the printed lines; a raised exception
    is a [Raise] result.  What the collaborators answer is a [world]. *)

From Stdlib Require Import String Ascii List Arith Lia Bool.
From stdpp Require Import base option list strings pretty gmap fin_maps.
Import ListNotations.

Open Scope string_scope.
Open Scope list_scope.

(** ** Python strings *)

Module PyStr.

(** [sep in s] *)
Fixpoint contains (sep s : string) : bool :=
  String.prefix sep s ||
  match s with
  | EmptyString => false
  | String _ s' => contains sep s'
  end.

(** The scan behind [str.split(sep)] for a non-empty [sep]: occurrences
    are taken leftmost first and do not overlap.  [skip] counts the
    characters of a matched separator still to be dropped, [cur] is the
    piece read so far. *)
Fixpoint split_from (sep : string) (skip : nat) (cur s : string) : list string :=
  match s with
  | EmptyString => [cur]
  | String c s' =>
      match skip with
      | S k => split_from sep k cur s'
      | O =>
          if String.prefix sep s
          then cur :: split_from sep (String.length sep - 1) EmptyString s'
          else split_from sep 0 (cur +:+ String c EmptyString) s'
      end
  end.

(** [s.split(sep)], [sep] a non-empty literal. *)
Definition split (sep s : string) : list string := split_from sep 0 EmptyString s.

(** [sep.join(l)] *)
Definition join (sep : string) (l : list string) : string := String.concat sep l.

(** Truth value of a string: [not s] holds for the empty string only. *)
Definition truthy (s : string) : bool :=
  match s with EmptyString => false | _ => true end.

End PyStr.

(** ** Exceptions *)

(** The subclasses of [Exception] that the module names or that its
    collaborators raise. *)
Inductive exn : Type :=
| TranscriptsDisabled
| NoTranscriptFound
| CouldNotRetrieveTranscript
| PytubeError (msg : string)
| HttpError (msg : string)
| APIError (msg : string)
| DuplicateKeyError
| KeyError (key : string)
| IndexError
| AttributeError (msg : string)
| TypeError (msg : string)
| ValueError (msg : string)
| OtherError (msg : string).

Inductive exn_class : Type :=
| CTranscriptsDisabled
| CNoTranscriptFound
| CCouldNotRetrieveTranscript
| CPytubeError
| CHttpError
| CIndexError
| CException.

(** [isinstance(e, c)].  In youtube_transcript_api the first two classes
    derive from [CouldNotRetrieveTranscript]. *)
Definition isinstance (e : exn) (c : exn_class) : bool :=
  match c, e with
  | CException, _ => true
  | CTranscriptsDisabled, TranscriptsDisabled => true
  | CNoTranscriptFound, NoTranscriptFound => true
  | CCouldNotRetrieveTranscript,
    (TranscriptsDisabled | NoTranscriptFound | CouldNotRetrieveTranscript) => true
  | CPytubeError, PytubeError _ => true
  | CHttpError, HttpError _ => true
  | CIndexError, IndexError => true
  | _, _ => false
  end.

(** [str(e)] as it appears in the printed lines. *)
Definition exn_str (e : exn) : string :=
  match e with
  | TranscriptsDisabled => "TranscriptsDisabled"
  | NoTranscriptFound => "NoTranscriptFound"
  | CouldNotRetrieveTranscript => "CouldNotRetrieveTranscript"
  | PytubeError m | HttpError m | APIError m | AttributeError m
  | TypeError m | ValueError m | OtherError m => m
  | DuplicateKeyError => "E11000 duplicate key error"
  | KeyError k => "'" +:+ k +:+ "'"
  | IndexError => "list index out of range"
  end.

Inductive result (A : Type) : Type :=
| Ok (a : A)
| Raise (e : exn).
Arguments Ok {A} a.
Arguments Raise {A} e.

Definition is_ok {A} (r : result A) : bool :=
  match r with Ok _ => true | Raise _ => false end.

(** [l[-1]] and [l[0]] *)
Definition index_last {A} (l : list A) : result A :=
  match l with
  | x :: l' => Ok (List.last l' x)
  | [] => Raise IndexError
  end.

Definition index_first {A} (l : list A) : result A :=
  match l with
  | x :: _ => Ok x
  | [] => Raise IndexError
  end.

(** ** [_get_video_id_from_url] (lines 63-67)

    [url.split('v=')[-1].split('&')[0]]; an [IndexError] gives [None],
    anything else would propagate. *)
Definition _get_video_id_from_url (url : string) : result (option string) :=
  let body :=
    match index_last (PyStr.split "v=" url) with
    | Raise e => Raise e
    | Ok after_v =>
        match index_first (PyStr.split "&" after_v) with
        | Raise e => Raise e
        | Ok v => Ok (Some v)
        end
    end in
  match body with
  | Raise e => if isinstance e CIndexError then Ok None else Raise e
  | Ok r => Ok r
  end.

(** [not x] for a value that is [None] or a string *)
Definition py_not (x : option string) : bool :=
  match x with
  | None => true
  | Some s => negb (PyStr.truthy s)
  end.

(** ** The handler class of line 103

    Line 14 binds the name [supabase_exceptions] to the class
    [ClientOptions] of [supabase.lib.client_options] (line 12, which
    imported the library's exceptions under that name, is commented
    out).  [ClientOptions] is a dataclass of client settings; its class
    attributes are the fields that have a plain default (the fields
    built by a default factory, the headers and the storage, exist on
    instances only).  No version has an attribute [APIError].  The
    expression after [except] is evaluated when an exception reaches
    the clause. *)
Definition ClientOptions_attributes : list string :=
  ["schema"; "auto_refresh_token"; "persist_session"; "realtime";
   "postgrest_client_timeout"; "storage_client_timeout"; "flow_type"].

Inductive pyobj : Type :=
| ExnClass (c : exn_class)
| OtherObject.

(** [cls.name] on a class with the given attributes *)
Definition class_getattr (cls : string) (attributes : list string) (name : string) : result pyobj :=
  if existsb (String.eqb name) attributes
  then Ok OtherObject
  else Raise (AttributeError
                ("type object '" +:+ cls +:+ "' has no attribute '" +:+ name +:+ "'")).

(** Does [except <expr>] match [e]?  Evaluating the expression may
    itself raise, and only exception classes can be caught. *)
Definition except_clause (expr : result pyobj) (e : exn) : result bool :=
  match expr with
  | Raise e' => Raise e'
  | Ok (ExnClass c) => Ok (isinstance e c)
  | Ok OtherObject =>
      Raise (TypeError "catching classes that do not inherit from BaseException is not allowed")
  end.

Definition supabase_exceptions_APIError : result pyobj :=
  class_getattr "ClientOptions" ClientOptions_attributes "APIError".

(** ** Data *)

(** Values held by a record's fields: strings, and the [ObjectId] that
    store A adds under ["_id"]. *)
Inductive value : Type :=
| VStr (s : string)
| VOid (n : nat).

#[global] Instance value_eq_dec : EqDecision value.
Proof. solve_decision. Defined.

(** A Python [dict] with string keys: records, documents and rows. *)
Abbreviation dict := (gmap string value).

(** What [_check_if_video_exists] can hand back: [None], a [bool] or a
    document. *)
Inductive pyval : Type :=
| PNone
| PBool (b : bool)
| PDict (d : dict).

Definition truthy (v : pyval) : bool :=
  match v with
  | PNone => false
  | PBool b => b
  | PDict d => negb (bool_decide (d = ∅))
  end.

(** [a or b]: the first operand when it is truthy, else the second. *)
Definition py_or (a b : pyval) : pyval := if truthy a then a else b.

Definition is_bool (v : pyval) : bool :=
  match v with PBool _ => true | _ => false end.

(** One element of the primary provider's answer; the code reads
    ['text'] only. *)
Record segment := { seg_text : string; seg_start : nat; seg_duration : nat }.

(** A liked-video item: [None] stands for a key that is absent. *)
Record snippet := {
  sn_title : option string;
  sn_publishedAt : option string;
  sn_description : option string }.

Record video_item := { it_id : option string; it_snippet : option snippet }.

Record response := { items : option (list video_item) }.

(** [d[key]] *)
Definition getitem {A} (key : string) (field : option A) : result A :=
  match field with
  | Some v => Ok v
  | None => Raise (KeyError key)
  end.

(** OAuth credentials as [_get_youtube_service] inspects them. *)
Record creds := { valid : bool; expired : bool; refresh_token : option string }.

(** The fallback provider's objects. *)
Record caption := { generate_srt_captions : result string }.
Record pytube_video := { get_by_language_code : string -> result (option caption) }.

(** ** Calls to collaborators *)

Inductive call : Type :=
| Path_exists (path : string)
| Credentials_from_file (path : string)
| Credentials_refresh
| Flow_from_client_secrets (path : string)
| Flow_run_local_server
| File_write (path : string)
| Discovery_build (service version : string)
| MongoClient_new (uri : string)
| Supabase_create_client (url key : string)
| Videos_list (part_ myRating : string) (maxResults : nat)
| Mongo_find_one (field val : string)
| Mongo_insert_one (d : dict)
| Supabase_select (table columns field val : string)
| Supabase_insert (table : string) (d : dict)
| YTA_get_transcript (video_id : string) (languages : list string)
| Pytube_YouTube (url : string)
| Pytube_get_by_language_code (code : string)
| Pytube_generate_srt_captions
| Datetime_now
| Time_sleep (secs : nat).

(** Calls that certainly go over the network.  Reading and writing
    local files, building client objects, the clock and the pause do
    not; [MongoClient(uri)] connects lazily and is left out. *)
Definition contacts_network (c : call) : bool :=
  match c with
  | Credentials_refresh | Flow_run_local_server
  | Videos_list _ _ _
  | Mongo_find_one _ _ | Mongo_insert_one _
  | Supabase_select _ _ _ _ | Supabase_insert _ _
  | YTA_get_transcript _ _
  | Pytube_get_by_language_code _ | Pytube_generate_srt_captions => true
  | _ => false
  end.

Definition is_transcript_call (c : call) : bool :=
  match c with
  | YTA_get_transcript _ _ | Pytube_YouTube _
  | Pytube_get_by_language_code _ | Pytube_generate_srt_captions => true
  | _ => false
  end.

Definition is_store_call (c : call) : bool :=
  match c with
  | Mongo_find_one _ _ | Mongo_insert_one _
  | Supabase_select _ _ _ _ | Supabase_insert _ _ => true
  | _ => false
  end.

Definition is_mongo_insert (c : call) : bool :=
  match c with Mongo_insert_one _ => true | _ => false end.

Definition is_supabase_insert (c : call) : bool :=
  match c with Supabase_insert _ _ => true | _ => false end.

Definition is_sleep (c : call) : bool :=
  match c with Time_sleep _ => true | _ => false end.

Definition is_find_one (c : call) : bool :=
  match c with Mongo_find_one _ _ => true | _ => false end.

(** Calls of [_get_youtube_service] *)
Definition is_auth_call (c : call) : bool :=
  match c with
  | Path_exists _ | Credentials_from_file _ | Credentials_refresh
  | Flow_from_client_secrets _ | Flow_run_local_server | File_write _
  | Discovery_build _ _ => true
  | _ => false
  end.

Definition is_refresh (c : call) : bool :=
  match c with Credentials_refresh => true | _ => false end.

Definition is_login (c : call) : bool :=
  match c with Flow_run_local_server => true | _ => false end.

Definition is_token_write (c : call) : bool :=
  match c with File_write _ => true | _ => false end.

Definition is_videos_list (c : call) : bool :=
  match c with Videos_list _ _ _ => true | _ => false end.

(** ** The world: what the collaborators answer *)

Record world := {
  (* os.getenv at import time (lines 22-24) *)
  MONGO_URI : option string;
  SUPABASE_URL : option string;
  SUPABASE_KEY : option string;
  (* authentication *)
  token_exists : bool;
  from_authorized_user_file : result creds;
  refresh : result unit;
  from_client_secrets_file : result unit;
  run_local_server : result creds;
  token_write : result unit;
  build : result unit;
  new_MongoClient : string -> result unit;
  create_client : string -> string -> result unit;
  (* the video API: part, myRating, maxResults *)
  videos_list_execute : string -> string -> nat -> result response;
  (* a store call made after [n] earlier calls may fail *)
  store_fault : nat -> call -> option exn;
  (* transcript providers *)
  get_transcript : string -> list string -> result (list segment);
  YouTube : string -> result pytube_video;
  (* datetime.now().isoformat() and ObjectId() after [n] calls *)
  now_isoformat : nat -> string;
  new_ObjectId : nat -> nat }.

(** ** State and the monad *)

Record state := {
  mongo_docs : list dict;      (* collection "videos" of store A *)
  supabase_rows : list dict;   (* table "youtube_videos" of store B *)
  trace : list call;           (* calls made, oldest first *)
  log : list string }.         (* printed lines, oldest first *)

Definition M (A : Type) : Type := state -> result A * state.

Definition ret {A} (a : A) : M A := fun s => (Ok a, s).

Definition bind {A B} (m : M A) (k : A -> M B) : M B :=
  fun s =>
    match m s with
    | (Ok a, s') => k a s'
    | (Raise e, s') => (Raise e, s')
    end.

Definition raise {A} (e : exn) : M A := fun s => (Raise e, s).

Definition lift {A} (r : result A) : M A := fun s => (r, s).

(** [try: m  except ...: h e]; [h] re-raises what no clause matches. *)
Definition try_except {A} (m : M A) (h : exn -> M A) : M A :=
  fun s =>
    match m s with
    | (Ok a, s') => (Ok a, s')
    | (Raise e, s') => h e s'
    end.

Notation "'let*' x ':=' m 'in' k" := (bind m (fun x => k))
  (at level 10, x name, m at level 99, k at level 200).
Notation "'let*' ' p ':=' m 'in' k" := (bind m (fun x => match x with p => k end))
  (at level 10, p pattern, m at level 99, k at level 200).
Notation "m ;; k" := (bind m (fun _ => k))
  (at level 100, k at level 200, right associativity).

Definition add_log (lines : list string) (s : state) : state :=
  {| mongo_docs := mongo_docs s; supabase_rows := supabase_rows s;
     trace := trace s; log := log s ++ lines |}.

Definition add_calls (calls : list call) (s : state) : state :=
  {| mongo_docs := mongo_docs s; supabase_rows := supabase_rows s;
     trace := trace s ++ calls; log := log s |}.

Definition print (line : string) : M unit := fun s => (Ok tt, add_log [line] s).

(** Record a call. *)
Definition called (c : call) : M unit := fun s => (Ok tt, add_calls [c] s).

Definition clock : M nat := fun s => (Ok (length (trace s)), s).

(** A call whose answer the world fixes. *)
Definition ask {A} (c : call) (answer : result A) : M A :=
  called c ;; lift answer.

Definition get_mongo : M (list dict) := fun s => (Ok (mongo_docs s), s).
Definition get_supabase : M (list dict) := fun s => (Ok (supabase_rows s), s).

Definition put_mongo (docs : list dict) : M unit :=
  fun s => (Ok tt, {| mongo_docs := docs; supabase_rows := supabase_rows s;
                      trace := trace s; log := log s |}).

Definition put_supabase (rows : list dict) : M unit :=
  fun s => (Ok tt, {| mongo_docs := mongo_docs s; supabase_rows := rows;
                      trace := trace s; log := log s |}).

(** ** The collaborators' operations *)

Section Processor.

Context (w : world).

(** A store call: recorded, then failed if the world says so. *)
Definition store_call (c : call) : M unit :=
  let* n := clock in
  called c ;;
  match store_fault w n c with
  | Some e => raise e
  | None => ret tt
  end.

Definition field_is (field val : string) (d : dict) : bool :=
  bool_decide (d !! field = Some (VStr val)).

(** [collection.find_one({field: val})]: the first matching document,
    or [None]. *)
Definition find_one (field val : string) : M (option dict) :=
  store_call (Mongo_find_one field val) ;;
  let* docs := get_mongo in
  ret (List.find (field_is field val) docs).

(** pymongo gives a document without ["_id"] a fresh [ObjectId], in
    the caller's dict, before it sends it. *)
Definition assign_id (document : dict) : M dict :=
  let* n := clock in
  ret (match document !! "_id" with
       | Some _ => document
       | None => <["_id" := VOid (new_ObjectId w n)]> document
       end).

(** [collection.insert_one(document)] once the identifier is there.
    A rejected write (a duplicate key, a lost connection) is a fault of
    the world. *)
Definition insert_one_send (document : dict) : M unit :=
  store_call (Mongo_insert_one document) ;;
  let* docs := get_mongo in
  put_mongo (docs ++ [document]).

(** [table(t).select(columns).eq(field, val).execute().data] for a
    single column. *)
Definition project (column : string) (row : dict) : dict :=
  match row !! column with
  | Some v => {[ column := v ]}
  | None => ∅
  end.

Definition select_eq (table columns field val : string) : M (list dict) :=
  store_call (Supabase_select table columns field val) ;;
  let* rows := get_supabase in
  ret (map (project columns) (List.filter (field_is field val) rows)).

(** [table(t).insert(row).execute()] *)
Definition supabase_insert (table : string) (row : dict) : M unit :=
  store_call (Supabase_insert table row) ;;
  let* rows := get_supabase in
  put_supabase (rows ++ [row]).

Definition time_sleep (secs : nat) : M unit := called (Time_sleep secs).

Definition datetime_now_isoformat : M string :=
  let* n := clock in
  called Datetime_now ;;
  ret (now_isoformat w n).

(** ** [VideoProcessor] *)

Definition supabase_table : string := "youtube_videos".

Definition no_transcript : string * option string := ("No transcript available", None).

(** [_get_transcript] (lines 69-95).  Each [try] block yields [Some r]
    when it returns [r] from the method and [None] when control falls
    through to the code after it. *)
Definition _get_transcript (youtube_url : string) : M (string * option string) :=
  let* video_id := lift (_get_video_id_from_url youtube_url) in
  if py_not video_id then ret no_transcript
  else
    let vid := default "" video_id in
    let* primary :=
      try_except
        (let* transcript_list :=
           ask (YTA_get_transcript vid ["en"; "ta"]) (get_transcript w vid ["en"; "ta"]) in
         let transcript := PyStr.join " " (map seg_text transcript_list) in
         ret (Some (transcript, Some "yta")))
        (fun e =>
           if isinstance e CTranscriptsDisabled || isinstance e CNoTranscriptFound
              || isinstance e CCouldNotRetrieveTranscript
           then ret None
           else if isinstance e CException
           then print ("Error with youtube-transcript-api: " +:+ exn_str e) ;; ret None
           else raise e) in
    match primary with
    | Some r => ret r
    | None =>
        let* fallback :=
          try_except
            (let* yt := ask (Pytube_YouTube youtube_url) (YouTube w youtube_url) in
             let* en := ask (Pytube_get_by_language_code "en") (get_by_language_code yt "en") in
             let* caption :=
               match en with
               | Some c => ret (Some c)
               | None => ask (Pytube_get_by_language_code "ta") (get_by_language_code yt "ta")
               end in
             match caption with
             | Some c =>
                 let* srt := ask Pytube_generate_srt_captions (generate_srt_captions c) in
                 ret (Some (srt, Some "pytube"))
             | None => ret None
             end)
            (fun e =>
               if isinstance e CPytubeError
               then print ("Error with pytube: " +:+ exn_str e) ;; ret None
               else if isinstance e CException
               then print ("Unexpected error with pytube: " +:+ exn_str e) ;; ret None
               else raise e) in
        match fallback with
        | Some r => ret r
        | None => ret no_transcript
        end
    end.

Definition of_find (o : option dict) : pyval :=
  match o with
  | Some d => PDict d
  | None => PNone
  end.

(** [_check_if_video_exists] (lines 97-107) *)
Definition _check_if_video_exists (video_id : string) : M pyval :=
  let* exists_mongo := find_one "video_id" video_id in
  let* exists_supabase :=
    try_except
      (let* exists_supabase_data := select_eq supabase_table "video_id" "video_id" video_id in
       ret (Nat.ltb 0 (length exists_supabase_data)))
      (fun e =>
         let* caught := lift (except_clause supabase_exceptions_APIError e) in
         if caught
         then print ("Supabase API error: " +:+ exn_str e) ;; ret false
         else raise e) in
  ret (py_or (of_find exists_mongo) (PBool exists_supabase)).

Definition value_str (v : value) : string :=
  match v with
  | VStr s => s
  | VOid n => pretty n
  end.

(** How an f-string shows [d.get(key)] *)
Definition get_str (d : dict) (key : string) : string :=
  match d !! key with
  | Some v => value_str v
  | None => "None"
  end.

(** [_insert_video_data] (lines 109-121).  [insert_one] writes ["_id"]
    into [video_data] itself, so the copy of line 115 has it and line
    116 pops it. *)
Definition _insert_video_data (video_data : dict) : M unit :=
  let* video_data := assign_id video_data in
  try_except
    (insert_one_send video_data ;;
     let supabase_data := delete "_id" video_data in
     supabase_insert supabase_table supabase_data ;;
     let* title := lift (getitem "title" (video_data !! "title")) in
     print ("Successfully inserted video: " +:+ value_str title))
    (fun e =>
       if isinstance e CException
       then print ("Error inserting video data for " +:+ get_str video_data "title"
                   +:+ ": " +:+ exn_str e)
       else raise e).

(** The record of lines 143-151 *)
Definition video_record (video_id title published_at description youtube_url added_at transcript : string)
  : dict :=
  <["transcript" := VStr transcript]>
  (<["added_at" := VStr added_at]>
  (<["youtube_url" := VStr youtube_url]>
  (<["description" := VStr description]>
  (<["published_at" := VStr published_at]>
  (<["title" := VStr title]>
  (<["video_id" := VStr video_id]> ∅)))))).

(** The body of the loop of lines 134-154 *)
Definition process_item (video_item : video_item) : M unit :=
  let* video_id := lift (getitem "id" (it_id video_item)) in
  let* found := _check_if_video_exists video_id in
  if truthy found
  then print ("Skipping existing video: " +:+ video_id)
  else
    let youtube_url := "https://www.youtube.com/watch?v=" +:+ video_id in
    let* '(transcript, method_lang) := _get_transcript youtube_url in
    let* sn1 := lift (getitem "snippet" (it_snippet video_item)) in
    let* title := lift (getitem "title" (sn_title sn1)) in
    let* sn2 := lift (getitem "snippet" (it_snippet video_item)) in
    let* published_at := lift (getitem "publishedAt" (sn_publishedAt sn2)) in
    let* sn3 := lift (getitem "snippet" (it_snippet video_item)) in
    let description := default "" (sn_description sn3) in
    let* added_at := datetime_now_isoformat in
    let video_data :=
      video_record video_id title published_at description youtube_url added_at transcript in
    _insert_video_data video_data ;;
    time_sleep 1.

Fixpoint for_each {A} (body : A -> M unit) (l : list A) : M unit :=
  match l with
  | [] => ret tt
  | x :: l' => body x ;; for_each body l'
  end.

(** [run] (lines 123-159): the [try] block, and its two handlers *)
Definition run_body : M unit :=
  let* response :=
    ask (Videos_list "snippet" "like" 50) (videos_list_execute w "snippet" "like" 50) in
  let liked_videos := default [] (items response) in
  print ("Found " +:+ pretty (length liked_videos) +:+ " liked videos to process.") ;;
  for_each process_item liked_videos.

Definition run_handler (e : exn) : M unit :=
  if isinstance e CHttpError
  then print ("YouTube API error: " +:+ exn_str e)
  else if isinstance e CException
  then print ("An unexpected error occurred: " +:+ exn_str e)
  else raise e.

Definition run : M unit := try_except run_body run_handler.

(** [_get_youtube_service] (lines 34-51) *)
Definition run_flow : M creds :=
  ask (Flow_from_client_secrets "credentials.json") (from_client_secrets_file w) ;;
  ask Flow_run_local_server (run_local_server w).

Definition _get_youtube_service : M unit :=
  let* token_present := ask (Path_exists "token.json") (Ok (token_exists w)) in
  let* creds0 :=
    if token_present
    then let* c := ask (Credentials_from_file "token.json") (from_authorized_user_file w) in
         ret (Some c)
    else ret None in
  (if match creds0 with Some c => negb (valid c) | None => true end
   then
     (match creds0 with
      | Some c =>
          if expired c && negb (py_not (refresh_token c))
          then ask Credentials_refresh (refresh w) ;;
               ret {| valid := true; expired := false; refresh_token := refresh_token c |}
          else run_flow
      | None => run_flow
      end) ;;
     ask (File_write "token.json") (token_write w)
   else ret tt) ;;
  ask (Discovery_build "youtube" "v3") (build w).

(** [_setup_mongo_client] (lines 53-56) *)
Definition _setup_mongo_client : M unit :=
  if py_not (MONGO_URI w)
  then raise (ValueError "MONGO_URI environment variable not set.")
  else let uri := default "" (MONGO_URI w) in
       ask (MongoClient_new uri) (new_MongoClient w uri).

(** [_setup_supabase_client] (lines 58-61) *)
Definition _setup_supabase_client : M unit :=
  if py_not (SUPABASE_URL w) || py_not (SUPABASE_KEY w)
  then raise (ValueError "Supabase URL or Key environment variables not set.")
  else let url := default "" (SUPABASE_URL w) in
       let key := default "" (SUPABASE_KEY w) in
       ask (Supabase_create_client url key) (create_client w url key).

(** [__init__] (lines 27-32); [get_database] and [get_collection] only
    build handles. *)
Definition __init__ : M unit :=
  _get_youtube_service ;;
  _setup_mongo_client ;;
  _setup_supabase_client.

(** Lines 161-164 *)
Definition main : M unit := __init__ ;; run.

End Processor.

(** The exit status of the interpreter: 1 when an exception leaves the
    script. *)
Definition exit_code {A} (r : result A) : nat :=
  match r with
  | Ok _ => 0
  | Raise _ => 1
  end.

Definition initial (docs rows : list dict) : state :=
  {| mongo_docs := docs; supabase_rows := rows; trace := []; log := [] |}.

(** ** What the stores hold *)

Definition in_store_a (s : state) (video_id : string) : bool :=
  existsb (field_is "video_id" video_id) (mongo_docs s).

Definition in_store_b (s : state) (video_id : string) : bool :=
  existsb (field_is "video_id" video_id) (supabase_rows s).

Definition present (s : state) (video_id : string) : bool :=
  in_store_a s video_id || in_store_b s video_id.

(** The document [insert_one] sends for a record handed over after [n]
    calls: the record, with an ["_id"] when it had none. *)
Definition with_id (w : world) (n : nat) (record : dict) : dict :=
  match record !! "_id" with
  | Some _ => record
  | None => <["_id" := VOid (new_ObjectId w n)]> record
  end.

(** The value the check hands back when both queries return. *)
Definition check_value (s : state) (video_id : string) : pyval :=
  py_or (of_find (List.find (field_is "video_id" video_id) (mongo_docs s)))
        (PBool (in_store_b s video_id)).

(** The line the writer prints. *)
Definition error_line (record : dict) (e : exn) : string :=
  "Error inserting video data for " +:+ get_str record "title" +:+ ": " +:+ exn_str e.

Definition success_line (record : dict) : string :=
  match record !! "title" with
  | Some title => "Successfully inserted video: " +:+ value_str title
  | None => error_line record (KeyError "title")
  end.

(** ** One pass over the page, as a step relation

    [iteration w item s s' wrote] is one turn of the loop of lines
    134-154 when nothing raises: the item is skipped, or it goes
    through a whole write cycle. *)

Definition check_calls (video_id : string) : list call :=
  [Mongo_find_one "video_id" video_id;
   Supabase_select supabase_table "video_id" "video_id" video_id].

Definition watch_url (video_id : string) : string :=
  "https://www.youtube.com/watch?v=" +:+ video_id.

Inductive iteration (w : world) : video_item -> state -> state -> bool -> Prop :=
| iteration_skip item video_id s :
    it_id item = Some video_id ->
    present s video_id = true ->
    iteration w item s
      (add_log ["Skipping existing video: " +:+ video_id] (add_calls (check_calls video_id) s))
      false
| iteration_write item video_id sn title published_at s transcript tag calls lines :
    it_id item = Some video_id ->
    present s video_id = false ->
    it_snippet item = Some sn ->
    sn_title sn = Some title ->
    sn_publishedAt sn = Some published_at ->
    _get_transcript w (watch_url video_id) (add_calls (check_calls video_id) s)
      = (Ok (transcript, tag), add_log lines (add_calls (check_calls video_id ++ calls) s)) ->
    forallb is_transcript_call calls = true ->
    let n := length (trace s ++ check_calls video_id ++ calls) in
    let record :=
      video_record video_id title published_at (default "" (sn_description sn))
        (watch_url video_id) (now_isoformat w n) transcript in
    let document := <["_id" := VOid (new_ObjectId w (S n))]> record in
    iteration w item s
      {| mongo_docs := mongo_docs s ++ [document];
         supabase_rows := supabase_rows s ++ [record];
         trace := trace s ++ check_calls video_id ++ calls
                    ++ [Datetime_now; Mongo_insert_one document;
                        Supabase_insert supabase_table record; Time_sleep 1];
         log := log s ++ lines ++ ["Successfully inserted video: " +:+ title] |}
      true.

(** [pass w items s s' n]: the loop over [items] takes [s] to [s'] and
    goes through [n] write cycles. *)
Inductive pass (w : world) : list video_item -> state -> state -> nat -> Prop :=
| pass_done s : pass w [] s s 0
| pass_more item items s s1 s2 wrote n :
    iteration w item s s1 wrote ->
    pass w items s1 s2 n ->
    pass w (item :: items) s s2 ((if wrote then 1 else 0) + n).

(** An item with the keys the loop reads. *)
Definition well_formed (item : video_item) : bool :=
  match it_id item, it_snippet item with
  | Some _, Some sn =>
      match sn_title sn, sn_publishedAt sn with
      | Some _, Some _ => true
      | _, _ => false
      end
  | _, _ => false
  end.

Definition count_calls (p : call -> bool) (calls : list call) : nat :=
  length (List.filter p calls).

(** The lines of [run]'s handlers and of its first print. *)
Definition run_error_line (e : exn) : string :=
  if isinstance e CHttpError
  then "YouTube API error: " +:+ exn_str e
  else "An unexpected error occurred: " +:+ exn_str e.

Definition found_line (page : list video_item) : string :=
  "Found " +:+ pretty (length page) +:+ " liked videos to process.".

Definition listing : call := Videos_list "snippet" "like" 50.

(** Calls that build a client object for a store. *)
Definition is_client_call (c : call) : bool :=
  match c with
  | MongoClient_new _ | Supabase_create_client _ _ => true
  | _ => false
  end.

Definition mongo_message : string := "MONGO_URI environment variable not set.".

Definition supabase_message : string :=
  "Supabase URL or Key environment variables not set.".

(** ** The loop as the specification words it

    The definitions of this section do not use the methods above: they
    say, from the specification's text (4.1, 4.3-4.5), what a turn of
    the loop must do, for the code to be compared with. *)

(** An identifier as the platform gives them: not empty, and without
    the characters that the URL parsing gives a meaning to. *)
Definition plain_id (v : string) : bool :=
  PyStr.truthy v && negb (PyStr.contains "&" v) && negb (PyStr.contains "v=" v).

Definition has_plain_id (item : video_item) : bool :=
  match it_id item with
  | Some v => plain_id v
  | None => false
  end.

(** The listing returns no more items than the [maxResults] asked for. *)
Definition honours_max_results (w : world) : Prop :=
  forall part rating n r,
    videos_list_execute w part rating n = Ok r -> length (default [] (items r)) <= n.

(** 4.1, steps 2-6: the text resolved for an identifier and the provider
    calls made for it, in order.  The primary provider is asked for
    ['en'] then ['ta']; its segments are joined by single spaces; when
    it raises, the fallback is built from the URL and asked for an
    ['en'] track, then for a ['ta'] track if there is no ['en'] one,
    and the track found is rendered; any failure on the way gives the
    sentinel. *)
Definition spec_transcript (w : world) (url video_id : string) : string * list call :=
  let primary := YTA_get_transcript video_id ["en"; "ta"] in
  let opened := [primary; Pytube_YouTube url] in
  let en := Pytube_get_by_language_code "en" in
  let ta := Pytube_get_by_language_code "ta" in
  let rendered (c : caption) :=
    match generate_srt_captions c with
    | Ok srt => srt
    | Raise _ => "No transcript available"
    end in
  match get_transcript w video_id ["en"; "ta"] with
  | Ok segments => (String.concat " " (map seg_text segments), [primary])
  | Raise _ =>
      match YouTube w url with
      | Raise _ => ("No transcript available", opened)
      | Ok yt =>
          match get_by_language_code yt "en" with
          | Raise _ => ("No transcript available", opened ++ [en])
          | Ok (Some c) => (rendered c, opened ++ [en; Pytube_generate_srt_captions])
          | Ok None =>
              match get_by_language_code yt "ta" with
              | Raise _ => ("No transcript available", opened ++ [en; ta])
              | Ok (Some c) => (rendered c, opened ++ [en; ta; Pytube_generate_srt_captions])
              | Ok None => ("No transcript available", opened ++ [en; ta])
              end
          end
      end
  end.

(** 4.3: the record, key by key. *)
Definition spec_record
    (video_id title published_at description url added_at transcript : string) : dict :=
  list_to_map
    [("video_id", VStr video_id); ("title", VStr title);
     ("published_at", VStr published_at); ("description", VStr description);
     ("youtube_url", VStr url); ("added_at", VStr added_at);
     ("transcript", VStr transcript)].

(** 4.5: one turn of the loop on [item], from [s] to [s'].  Either the
    identifier is in a store and only the two queries are made; or it
    is in neither, and after the two queries the transcript is
    resolved, the record built with the time of building, the document
    inserted in store A and the record in store B, and the run pauses
    for one second. *)
Inductive turn (w : world) : video_item -> state -> state -> bool -> Prop :=
| turn_skip item video_id s s' :
    it_id item = Some video_id ->
    present s video_id = true ->
    trace s' = trace s ++ [Mongo_find_one "video_id" video_id;
                           Supabase_select "youtube_videos" "video_id" "video_id" video_id] ->
    mongo_docs s' = mongo_docs s ->
    supabase_rows s' = supabase_rows s ->
    turn w item s s' false
| turn_write item video_id sn title published_at s s' :
    it_id item = Some video_id ->
    present s video_id = false ->
    it_snippet item = Some sn ->
    sn_title sn = Some title ->
    sn_publishedAt sn = Some published_at ->
    let url := "https://www.youtube.com/watch?v=" +:+ video_id in
    let queries := [Mongo_find_one "video_id" video_id;
                    Supabase_select "youtube_videos" "video_id" "video_id" video_id] in
    let text := fst (spec_transcript w url video_id) in
    let asked := snd (spec_transcript w url video_id) in
    let n := length (trace s ++ queries ++ asked) in
    let record :=
      spec_record video_id title published_at (default "" (sn_description sn)) url
        (now_isoformat w n) text in
    let document := <["_id" := VOid (new_ObjectId w (S n))]> record in
    trace s' = trace s ++ queries ++ asked
                 ++ [Datetime_now; Mongo_insert_one document;
                     Supabase_insert "youtube_videos" record; Time_sleep 1] ->
    mongo_docs s' = mongo_docs s ++ [document] ->
    supabase_rows s' = supabase_rows s ++ [record] ->
    turn w item s s' true.

(** [turns w items s s' n]: one turn per item, in order, [n] of them
    write cycles. *)
Inductive turns (w : world) : list video_item -> state -> state -> nat -> Prop :=
| turns_done s : turns w [] s s 0
| turns_more item items s s1 s2 wrote n :
    turn w item s s1 wrote ->
    turns w items s1 s2 n ->
    turns w (item :: items) s s2 ((if wrote then 1 else 0) + n).

(** ** Worlds and values used in the examples *)

Definition world_of
    (uri url key : option string) (token : bool) (from_file : result creds)
    (page : result response) (fault : nat -> call -> option exn)
    (primary : string -> list string -> result (list segment))
    (fallback : string -> result pytube_video) : world :=
  {| MONGO_URI := uri; SUPABASE_URL := url; SUPABASE_KEY := key;
     token_exists := token;
     from_authorized_user_file := from_file;
     refresh := Ok tt;
     from_client_secrets_file := Ok tt;
     run_local_server := Ok {| valid := true; expired := false; refresh_token := Some "r" |};
     token_write := Ok tt;
     build := Ok tt;
     new_MongoClient := fun _ => Ok tt;
     create_client := fun _ _ => Ok tt;
     videos_list_execute := fun _ _ _ => page;
     store_fault := fault;
     get_transcript := primary;
     YouTube := fallback;
     now_isoformat := fun _ => "2024-05-01T10:00:00";
     new_ObjectId := fun n => n |}.

Definition valid_creds : creds :=
  {| valid := true; expired := false; refresh_token := Some "r" |}.

Definition stale_creds : creds :=
  {| valid := false; expired := true; refresh_token := Some "r" |}.

Definition no_faults : nat -> call -> option exn := fun _ _ => None.

Definition seg (t : string) : segment :=
  {| seg_text := t; seg_start := 0; seg_duration := 1 |}.

Definition item (i t p : string) : video_item :=
  {| it_id := Some i;
     it_snippet := Some {| sn_title := Some t; sn_publishedAt := Some p;
                           sn_description := None |} |}.

Definition empty_page : result response := Ok {| items := Some [] |}.

Definition two_items : result response :=
  Ok {| items := Some [item "old" "Old video" "2024-01-01T00:00:00Z";
                       item "new" "New video" "2024-02-01T00:00:00Z"] |}.

Definition old_doc : dict := <["video_id" := VStr "old"]> (<["_id" := VOid 7]> ∅).

Definition srt_sample : string := "1
00:00:00,000 --> 00:00:01,000
a
".

Definition english_only (text : result string) : pytube_video :=
  {| get_by_language_code := fun code =>
       if String.eqb code "en" then Ok (Some {| generate_srt_captions := text |})
       else Ok None |}.

Definition tamil_only (text : result string) : pytube_video :=
  {| get_by_language_code := fun code =>
       if String.eqb code "ta" then Ok (Some {| generate_srt_captions := text |})
       else Ok None |}.

Definition no_captions : pytube_video :=
  {| get_by_language_code := fun _ => Ok None |}.

(** Everything configured; the primary provider answers two segments. *)
Definition w_primary : world :=
  world_of (Some "mongodb://db") (Some "https://sb") (Some "key") true (Ok valid_creds)
    two_items no_faults
    (fun _ _ => Ok [seg "a"; seg "b"]) (fun _ => Raise (PytubeError "unavailable")).

(** Transcripts are disabled; the fallback has an English track. *)
Definition w_fallback : world :=
  world_of (Some "mongodb://db") (Some "https://sb") (Some "key") true (Ok valid_creds)
    two_items no_faults
    (fun _ _ => Raise TranscriptsDisabled) (fun _ => Ok (english_only (Ok srt_sample))).

(** Transcripts are disabled and the fallback has no track. *)
Definition w_none : world :=
  world_of (Some "mongodb://db") (Some "https://sb") (Some "key") true (Ok valid_creds)
    two_items no_faults
    (fun _ _ => Raise TranscriptsDisabled) (fun _ => Ok no_captions).

(** Store B fails on every query. *)
Definition select_fails : nat -> call -> option exn :=
  fun _ c => match c with
             | Supabase_select _ _ _ _ => Some (APIError "JWT expired")
             | _ => None
             end.

Definition w_store_b_down : world :=
  world_of (Some "mongodb://db") (Some "https://sb") (Some "key") true (Ok valid_creds)
    two_items select_fails
    (fun _ _ => Ok [seg "a"; seg "b"]) (fun _ => Raise (PytubeError "unavailable")).

(** Store B rejects every insert. *)
Definition insert_b_fails : nat -> call -> option exn :=
  fun _ c => match c with
             | Supabase_insert _ _ => Some (APIError "row violates policy")
             | _ => None
             end.

Definition w_insert_b_down : world :=
  world_of (Some "mongodb://db") (Some "https://sb") (Some "key") true (Ok valid_creds)
    two_items insert_b_fails
    (fun _ _ => Ok [seg "a"; seg "b"]) (fun _ => Raise (PytubeError "unavailable")).

(** [MONGO_URI] is unset and the saved token has expired. *)
Definition w_no_mongo_uri : world :=
  world_of None (Some "https://sb") (Some "key") true (Ok stale_creds)
    two_items no_faults
    (fun _ _ => Ok [seg "a"; seg "b"]) (fun _ => Raise (PytubeError "unavailable")).

(** [MONGO_URI] is unset and the saved token cannot be parsed. *)
Definition w_bad_token : world :=
  world_of None (Some "https://sb") (Some "key") true
    (Raise (OtherError "Expecting value: line 1 column 1 (char 0)"))
    two_items no_faults
    (fun _ _ => Ok [seg "a"; seg "b"]) (fun _ => Raise (PytubeError "unavailable")).

(** The store-B key is unset. *)
Definition w_no_supabase_key : world :=
  world_of (Some "mongodb://db") (Some "https://sb") None true (Ok valid_creds)
    two_items no_faults
    (fun _ _ => Ok [seg "a"; seg "b"]) (fun _ => Raise (PytubeError "unavailable")).

(** The listing fails. *)
Definition w_listing_down : world :=
  world_of (Some "mongodb://db") (Some "https://sb") (Some "key") true (Ok valid_creds)
    (Raise (HttpError "quotaExceeded")) no_faults
    (fun _ _ => Ok [seg "a"; seg "b"]) (fun _ => Raise (PytubeError "unavailable")).

Definition s_with_old : state := initial [old_doc] [].

(** The primary provider is rate limited; the fallback has no track. *)
Definition w_rate_limited : world :=
  world_of (Some "mongodb://db") (Some "https://sb") (Some "key") true (Ok valid_creds)
    two_items no_faults
    (fun _ _ => Raise (OtherError "429 Too Many Requests")) (fun _ => Ok no_captions).

(** Store A fails on every query. *)
Definition find_fails : nat -> call -> option exn :=
  fun _ c => match c with
             | Mongo_find_one _ _ => Some (OtherError "ServerSelectionTimeoutError")
             | _ => None
             end.

Definition w_store_a_down : world :=
  world_of (Some "mongodb://db") (Some "https://sb") (Some "key") true (Ok valid_creds)
    two_items find_fails
    (fun _ _ => Ok [seg "a"; seg "b"]) (fun _ => Raise (PytubeError "unavailable")).

(** The listing answers without an ['items'] key. *)
Definition w_no_items : world :=
  world_of (Some "mongodb://db") (Some "https://sb") (Some "key") true (Ok valid_creds)
    (Ok {| items := None |}) no_faults
    (fun _ _ => Ok [seg "a"; seg "b"]) (fun _ => Raise (PytubeError "unavailable")).

(** The first item of the page has no ['id']. *)
Definition item_without_id : video_item :=
  {| it_id := None;
     it_snippet := Some {| sn_title := Some "Nameless"; sn_publishedAt := Some "2024-03-01T00:00:00Z";
                           sn_description := None |} |}.

Definition w_item_without_id : world :=
  world_of (Some "mongodb://db") (Some "https://sb") (Some "key") true (Ok valid_creds)
    (Ok {| items := Some [item_without_id; item "new" "New video" "2024-02-01T00:00:00Z"] |})
    no_faults
    (fun _ _ => Ok [seg "a"; seg "b"]) (fun _ => Raise (PytubeError "unavailable")).

(** An item whose snippet has no ['title']. *)
Definition item_without_title : video_item :=
  {| it_id := Some "new";
     it_snippet := Some {| sn_title := None; sn_publishedAt := Some "2024-02-01T00:00:00Z";
                           sn_description := None |} |}.

(** The first key of lines 145-146 that the item lacks, if any;
    ['description'] has a default and is never lacking. *)
Definition missing_key (item : video_item) : option string :=
  match it_snippet item with
  | None => Some "snippet"
  | Some sn =>
      match sn_title sn with
      | None => Some "title"
      | Some _ =>
          match sn_publishedAt sn with
          | None => Some "publishedAt"
          | Some _ => None
          end
      end
  end.

(** The keys of a record. *)
Definition record_keys : gset string :=
  {[ "video_id"; "title"; "published_at"; "description"; "youtube_url"; "added_at";
     "transcript" ]}.

(** The saved token has expired and cannot be refreshed: the refresh
    call fails. *)
Definition w_refresh_fails : world :=
  {| MONGO_URI := Some "mongodb://db"; SUPABASE_URL := Some "https://sb";
     SUPABASE_KEY := Some "key";
     token_exists := true;
     from_authorized_user_file := Ok stale_creds;
     refresh := Raise (OtherError "invalid_grant");
     from_client_secrets_file := Ok tt;
     run_local_server := Ok valid_creds;
     token_write := Ok tt;
     build := Ok tt;
     new_MongoClient := fun _ => Ok tt;
     create_client := fun _ _ => Ok tt;
     videos_list_execute := fun _ _ _ => two_items;
     store_fault := no_faults;
     get_transcript := fun _ _ => Ok [seg "a"; seg "b"];
     YouTube := fun _ => Raise (PytubeError "unavailable");
     now_isoformat := fun _ => "2024-05-01T10:00:00";
     new_ObjectId := fun n => n |}.

(** Everything configured; the listing gives the first [maxResults] of
    the two liked videos. *)
Definition w_paged : world :=
  {| MONGO_URI := Some "mongodb://db"; SUPABASE_URL := Some "https://sb";
     SUPABASE_KEY := Some "key";
     token_exists := true;
     from_authorized_user_file := Ok valid_creds;
     refresh := Ok tt;
     from_client_secrets_file := Ok tt;
     run_local_server := Ok valid_creds;
     token_write := Ok tt;
     build := Ok tt;
     new_MongoClient := fun _ => Ok tt;
     create_client := fun _ _ => Ok tt;
     videos_list_execute := fun _ _ n =>
       Ok {| items := Some (firstn n [item "dQw4w9WgXcQ" "Old video" "2024-01-01T00:00:00Z";
                                      item "9bZkp7q19f0" "New video" "2024-02-01T00:00:00Z"]) |};
     store_fault := no_faults;
     get_transcript := fun _ _ => Ok [seg "a"; seg "b"];
     YouTube := fun _ => Raise (PytubeError "unavailable");
     now_isoformat := fun _ => "2024-05-01T10:00:00";
     new_ObjectId := fun n => n |}.

Definition s_with_first : state :=
  initial [<["video_id" := VStr "dQw4w9WgXcQ"]> (<["_id" := VOid 7]> ∅)] [].

(** ** What a piece of a run may do

    [run_frame s s' added]: from [s] to [s'] the calls [added] were made,
    lines were only appended, documents and rows were only appended, each
    new row is a new document without its ["_id"], and the calls are
    paired as the loop pairs them. *)

(** Calls that are neither a listing, nor a pause, nor an insert. *)
Definition is_quiet (c : call) : bool :=
  negb (is_videos_list c || is_sleep c || is_mongo_insert c || is_supabase_insert c).

(** A trace in which every insert into store A is followed at once by
    the pause of one second, or by an insert into store B and then the
    pause, and in which pauses and store-B inserts occur nowhere else. *)
Inductive paced : list call -> Prop :=
| paced_nil : paced []
| paced_quiet c calls : is_quiet c = true -> paced calls -> paced (c :: calls)
| paced_a d calls :
    paced calls -> paced (Mongo_insert_one d :: Time_sleep 1 :: calls)
| paced_ab d table row calls :
    paced calls ->
    paced (Mongo_insert_one d :: Supabase_insert table row :: Time_sleep 1 :: calls).

Definition stripped_of (docs : list dict) (row : dict) : Prop :=
  exists d, In d docs /\ row = delete "_id" d.

Definition run_frame (s s' : state) (added : list call) : Prop :=
  trace s' = trace s ++ added
  /\ (exists lines, log s' = log s ++ lines)
  /\ (exists docs rows,
        mongo_docs s' = mongo_docs s ++ docs
        /\ supabase_rows s' = supabase_rows s ++ rows
        /\ Forall (stripped_of docs) rows
        /\ length rows <= length docs
        /\ length docs <= count_calls is_mongo_insert added)
  /\ count_calls is_videos_list added = 0
  /\ count_calls is_sleep added = count_calls is_mongo_insert added
  /\ count_calls is_supabase_insert added <= count_calls is_mongo_insert added
  /\ paced added.

(** * Properties *)

(** ** Strings and the split scan *)

Module PyStrFacts.
Import PyStr.

Lemma app_cons c s t : String c s +:+ t = String c (s +:+ t).
Proof. reflexivity. Qed.

Lemma app_empty_l t : EmptyString +:+ t = t.
Proof. reflexivity. Qed.

Lemma app_empty_r s : s +:+ EmptyString = s.
Proof. induction s as [|c s IH]; [reflexivity|]. now rewrite app_cons, IH. Qed.

Lemma app_assoc s t u : (s +:+ t) +:+ u = s +:+ (t +:+ u).
Proof. induction s as [|c s IH]; [reflexivity|]. now rewrite !app_cons, IH. Qed.

Lemma split_from_nonempty sep s : forall skip cur, split_from sep skip cur s <> [].
Proof.
  induction s as [|c s IH]; intros skip cur; cbn [split_from]; [easy|].
  destruct skip as [|k]; [|apply IH].
  destruct (String.prefix sep (String c s)); [easy | apply IH].
Qed.

(** Without an occurrence of the separator the scan returns one piece. *)
Lemma split_from_absent sep t :
  contains sep t = false -> forall cur, split_from sep 0 cur t = [cur +:+ t].
Proof.
  induction t as [|c t IH]; intros Hno cur.
  - simpl. now rewrite app_empty_r.
  - cbn [contains] in Hno. apply orb_false_iff in Hno as [Hp Hr].
    cbn [split_from]. rewrite Hp, (IH Hr), app_assoc. reflexivity.
Qed.

Lemma last_cons_nonempty {A} (x : A) l d : l <> [] -> List.last (x :: l) d = List.last l d.
Proof. destruct l; [congruence | reflexivity]. Qed.

Lemma last_default {A} (l : list A) : forall x d, List.last l x = List.last (x :: l) d.
Proof.
  induction l as [|y l IH]; intros x d; [reflexivity|].
  rewrite (last_cons_nonempty x (y :: l) d) by easy.
  now rewrite <- (IH y x), <- (IH y d).
Qed.

Lemma index_last_last {A} (l : list A) d : l <> [] -> index_last l = Ok (List.last l d).
Proof.
  destruct l as [|x l]; [congruence|]. intros _. unfold index_last. f_equal.
  apply last_default.
Qed.

(** The last piece of a split on ["v="] is what follows the last
    occurrence: no occurrence can overlap the one before [t]. *)
Lemma prefix_v t : String.prefix "v=" (String "v" (String "=" t)) = true.
Proof. destruct t; reflexivity. Qed.

Lemma split_v_last t :
  contains "v=" t = false ->
  forall n pre cur d, String.length pre <= n ->
    List.last (split_from "v=" 0 cur (pre +:+ String "v" (String "=" t))) d = t.
Proof.
  intros Hno n. induction n as [n IH] using lt_wf_ind. intros pre cur d Hlen.
  destruct pre as [|c pre].
  - rewrite app_empty_l. cbn [split_from]. rewrite prefix_v.
    cbn [split_from String.length Nat.sub].
    rewrite (split_from_absent _ _ Hno). reflexivity.
  - rewrite app_cons. cbn [split_from].
    destruct (String.prefix "v=" (String c (pre +:+ String "v" (String "=" t)))) eqn:Hp.
    + destruct pre as [|c' pre].
      * rewrite app_empty_l in Hp. cbn [String.prefix] in Hp.
        destruct (Ascii.ascii_dec "v" c); [|discriminate].
        destruct (Ascii.ascii_dec "=" "v"); congruence.
      * rewrite app_cons. cbn [String.length Nat.sub split_from].
        rewrite last_cons_nonempty by apply split_from_nonempty.
        apply (IH (String.length pre)); cbn [String.length] in Hlen; lia.
    + apply (IH (String.length pre)); cbn [String.length] in Hlen; lia.
Qed.

Lemma contains_amp_cons c s :
  contains "&" (String c s) = false -> c <> "&"%char /\ contains "&" s = false.
Proof.
  cbn [contains]. intros H. apply orb_false_iff in H as [Hp Hr]. split; [|exact Hr].
  intros ->. destruct s; cbn in Hp; discriminate Hp.
Qed.

(** The first piece of a split on ["&"] stops at the first ampersand. *)
Lemma split_amp_first v rest :
  contains "&" v = false ->
  (rest = EmptyString \/ String.prefix "&" rest = true) ->
  forall cur, exists l, split_from "&" 0 cur (v +:+ rest) = (cur +:+ v) :: l.
Proof.
  intros Hv Hrest. induction v as [|c v IH]; intros cur.
  - rewrite app_empty_l, app_empty_r. destruct Hrest as [-> | Hp].
    + exists []. reflexivity.
    + destruct rest as [|c rest]; [discriminate|]. cbn [split_from]. rewrite Hp. eauto.
  - apply contains_amp_cons in Hv as [Hc Hv]. rewrite app_cons. cbn [split_from].
    assert (String.prefix "&" (String c (v +:+ rest)) = false) as ->.
    { cbn [String.prefix]. destruct (Ascii.ascii_dec "&" c); [congruence | reflexivity]. }
    destruct (IH Hv (cur +:+ String c EmptyString)) as [l Hl].
    exists l. rewrite Hl, app_assoc. reflexivity.
Qed.

Lemma prefix_app s t : String.prefix s (s +:+ t) = true.
Proof.
  induction s as [|c s IH]; [destruct t; reflexivity|].
  rewrite app_cons. cbn [String.prefix].
  destruct (Ascii.ascii_dec c c); [exact IH | congruence].
Qed.

End PyStrFacts.

(** ** The transcript resolver *)

Lemma video_id_total url : exists v, _get_video_id_from_url url = Ok (Some v).
Proof.
  unfold _get_video_id_from_url, PyStr.split.
  destruct (PyStr.split_from "v=" 0 "" url) as [|x l] eqn:E.
  { now apply PyStrFacts.split_from_nonempty in E. }
  cbn [index_last].
  destruct (PyStr.split_from "&" 0 "" (List.last l x)) as [|y l'] eqn:E'.
  { now apply PyStrFacts.split_from_nonempty in E'. }
  cbn. eauto.
Qed.

Lemma video_id_of_url pre v rest :
  PyStr.contains "&" v = false ->
  PyStr.contains "v=" (v +:+ rest) = false ->
  (rest = "" \/ String.prefix "&" rest = true) ->
  _get_video_id_from_url (pre +:+ "v=" +:+ v +:+ rest) = Ok (Some v).
Proof.
  intros Hamp Hv Hrest. unfold _get_video_id_from_url, PyStr.split.
  change ("v=" +:+ v +:+ rest) with (String "v" (String "=" (v +:+ rest))).
  rewrite (PyStrFacts.index_last_last _ "") by apply PyStrFacts.split_from_nonempty.
  rewrite (PyStrFacts.split_v_last _ Hv (String.length pre)) by lia.
  destruct (PyStrFacts.split_amp_first v rest Hamp Hrest "") as [l ->].
  reflexivity.
Qed.

Lemma add_calls_add_calls l1 l2 s : add_calls l2 (add_calls l1 s) = add_calls (l1 ++ l2) s.
Proof. unfold add_calls; cbn. now rewrite app_assoc. Qed.

Lemma add_log_add_log l1 l2 s : add_log l2 (add_log l1 s) = add_log (l1 ++ l2) s.
Proof. unfold add_log; cbn. now rewrite app_assoc. Qed.

Lemma add_log_add_calls l cs s : add_log l (add_calls cs s) = add_calls cs (add_log l s).
Proof. reflexivity. Qed.

Ltac monad_unfold :=
  unfold bind, ret, lift, raise, try_except, ask, called, print, clock,
    get_mongo, get_supabase, put_mongo, put_supabase in *.

#[local] Arguments isinstance : simpl never.

Lemma isinstance_Exception e : isinstance e CException = true.
Proof. reflexivity. Qed.

Lemma isinstance_expected e :
  isinstance e CTranscriptsDisabled || isinstance e CNoTranscriptFound
    || isinstance e CCouldNotRetrieveTranscript
  = isinstance e CCouldNotRetrieveTranscript.
Proof. now destruct e. Qed.

Lemma state_ext (a b : state) :
  mongo_docs a = mongo_docs b -> supabase_rows a = supabase_rows b ->
  trace a = trace b -> log a = log b -> a = b.
Proof. destruct a, b; cbn; congruence. Qed.

Lemma add_log_nil s : add_log [] s = s.
Proof. apply state_ext; cbn; auto using app_nil_r. Qed.

Lemma add_calls_nil s : add_calls [] s = s.
Proof. apply state_ext; cbn; auto using app_nil_r. Qed.

(** Closes [x = y] between lists built by appending to the same base. *)
Ltac list_eq :=
  cbn;
  first [ reflexivity
        | rewrite <- ?List.app_assoc; cbn; reflexivity
        | symmetry; apply List.app_nil_r
        | rewrite <- ?List.app_assoc; cbn; rewrite ?List.app_nil_r; reflexivity ].

Ltac state_eq := apply state_ext; list_eq.

Ltac outcome_eq := apply f_equal2; [reflexivity | state_eq].

Section Resolver.

Context (w : world).

Lemma resolver_short_circuit url s :
  _get_video_id_from_url url = Ok (Some "") ->
  _get_transcript w url s = (Ok no_transcript, s).
Proof. intros Hid. unfold _get_transcript. monad_unfold. now rewrite Hid. Qed.

Lemma resolver_primary url vid segs s :
  _get_video_id_from_url url = Ok (Some vid) ->
  vid <> "" ->
  get_transcript w vid ["en"; "ta"] = Ok segs ->
  _get_transcript w url s =
    (Ok (PyStr.join " " (map seg_text segs), Some "yta"),
     add_calls [YTA_get_transcript vid ["en"; "ta"]] s).
Proof.
  intros Hid Hne Hp. unfold _get_transcript. monad_unfold. rewrite Hid.
  destruct vid; [congruence|]. cbn. now rewrite Hp.
Qed.

(** What the fallback block (lines 85-93) does once the primary block
    has fallen through. *)
Lemma resolver_after_primary_failure url vid e s :
  _get_video_id_from_url url = Ok (Some vid) ->
  vid <> "" ->
  get_transcript w vid ["en"; "ta"] = Raise e ->
  exists r calls lines,
    _get_transcript w url s =
      (Ok r, add_log ((if isinstance e CCouldNotRetrieveTranscript then []
                       else ["Error with youtube-transcript-api: " +:+ exn_str e]) ++ lines)
               (add_calls (YTA_get_transcript vid ["en"; "ta"] :: Pytube_YouTube url :: calls) s))
    /\ match YouTube w url with
       | Raise e' => calls = [] /\ r = no_transcript /\ length lines = 1
       | Ok yt =>
           match get_by_language_code yt "en" with
           | Raise e' =>
               calls = [Pytube_get_by_language_code "en"] /\ r = no_transcript
               /\ length lines = 1
           | Ok (Some c) =>
               calls = [Pytube_get_by_language_code "en"; Pytube_generate_srt_captions]
               /\ match generate_srt_captions c with
                  | Ok srt => r = (srt, Some "pytube") /\ lines = []
                  | Raise _ => r = no_transcript /\ length lines = 1
                  end
           | Ok None =>
               match get_by_language_code yt "ta" with
               | Raise e' =>
                   calls = [Pytube_get_by_language_code "en"; Pytube_get_by_language_code "ta"]
                   /\ r = no_transcript /\ length lines = 1
               | Ok (Some c) =>
                   calls = [Pytube_get_by_language_code "en"; Pytube_get_by_language_code "ta";
                            Pytube_generate_srt_captions]
                   /\ match generate_srt_captions c with
                      | Ok srt => r = (srt, Some "pytube") /\ lines = []
                      | Raise _ => r = no_transcript /\ length lines = 1
                      end
               | Ok None =>
                   calls = [Pytube_get_by_language_code "en"; Pytube_get_by_language_code "ta"]
                   /\ r = no_transcript /\ lines = []
               end
           end
       end
    /\ Forall (fun line => String.prefix "Error with pytube: " line = true
                           \/ String.prefix "Unexpected error with pytube: " line = true) lines.
Proof.
  intros Hid Hne Hp. unfold _get_transcript. monad_unfold. rewrite Hid.
  destruct vid; [congruence|]. cbn. rewrite Hp. cbn.
  assert (Hlines : forall m,
             Forall (fun line => String.prefix "Error with pytube: " line = true
                       \/ String.prefix "Unexpected error with pytube: " line = true)
               ["Error with pytube: " +:+ m]
             /\ Forall (fun line => String.prefix "Error with pytube: " line = true
                       \/ String.prefix "Unexpected error with pytube: " line = true)
               ["Unexpected error with pytube: " +:+ m]).
  { intros m; split; (constructor; [|constructor]);
      [left | right]; apply PyStrFacts.prefix_app. }
  rewrite isinstance_expected, isinstance_Exception.
  destruct (YouTube w url) as [tube|e1]; cbn.
  2: { rewrite isinstance_Exception.
       destruct (isinstance e CCouldNotRetrieveTranscript), (isinstance e1 CPytubeError);
         cbn; (eexists _, _, _; split; [outcome_eq | repeat split; apply Hlines]). }
  destruct (get_by_language_code tube "en") as [[c|]|e1]; cbn.
  - destruct (generate_srt_captions c) as [srt|e2]; cbn.
    + destruct (isinstance e CCouldNotRetrieveTranscript); cbn;
        (eexists _, _, _; split; [outcome_eq | repeat split; constructor]).
    + rewrite isinstance_Exception.
      destruct (isinstance e CCouldNotRetrieveTranscript), (isinstance e2 CPytubeError);
        cbn; (eexists _, _, _; split; [outcome_eq | repeat split; apply Hlines]).
  - destruct (get_by_language_code tube "ta") as [[c|]|e2]; cbn.
    + destruct (generate_srt_captions c) as [srt|e3]; cbn.
      * destruct (isinstance e CCouldNotRetrieveTranscript); cbn;
          (eexists _, _, _; split; [outcome_eq | repeat split; constructor]).
      * rewrite isinstance_Exception.
        destruct (isinstance e CCouldNotRetrieveTranscript), (isinstance e3 CPytubeError);
          cbn; (eexists _, _, _; split; [outcome_eq | repeat split; apply Hlines]).
    + destruct (isinstance e CCouldNotRetrieveTranscript); cbn;
        (eexists _, _, _; split; [outcome_eq | repeat split; constructor]).
    + rewrite isinstance_Exception.
      destruct (isinstance e CCouldNotRetrieveTranscript), (isinstance e2 CPytubeError);
        cbn; (eexists _, _, _; split; [outcome_eq | repeat split; apply Hlines]).
  - rewrite isinstance_Exception.
    destruct (isinstance e CCouldNotRetrieveTranscript), (isinstance e1 CPytubeError);
      cbn; (eexists _, _, _; split; [outcome_eq | repeat split; apply Hlines]).
Qed.

Lemma expected_is_caught e :
  e = TranscriptsDisabled \/ e = NoTranscriptFound \/ e = CouldNotRetrieveTranscript ->
  isinstance e CCouldNotRetrieveTranscript = true.
Proof. intros [-> | [-> | ->]]; reflexivity. Qed.

End Resolver.

(** C3, as amended.  The identifier is what follows the last ["v="] up
    to the next ["&"]: when ["v="] does not occur again after the
    identifier, extraction gives exactly the identifier; and when the
    extracted identifier is empty the resolver answers
    [("No transcript available", None)] with no call and no printed line. *)
Theorem video_id_extraction :
  (forall pre v rest,
     PyStr.contains "&" v = false ->
     PyStr.contains "v=" (v +:+ rest) = false ->
     (rest = "" \/ String.prefix "&" rest = true) ->
     _get_video_id_from_url (pre +:+ "v=" +:+ v +:+ rest) = Ok (Some v))
  /\ (forall w url s,
        _get_video_id_from_url url = Ok (Some "") ->
        _get_transcript w url s = (Ok no_transcript, s)).
Proof.
  split.
  - exact video_id_of_url.
  - exact resolver_short_circuit.
Qed.

Lemma video_id_extraction_witness :
  _get_video_id_from_url ("https://www.youtube.com/watch?" +:+ "v=" +:+ "abc" +:+ "&t=10")
    = Ok (Some "abc")
  /\ _get_transcript w_primary "https://www.youtube.com/watch?v=" (initial [] [])
     = (Ok no_transcript, initial [] []).
Proof.
  destruct video_id_extraction as [Hid Hshort]. split.
  - apply Hid; [reflexivity | reflexivity | right; reflexivity].
  - apply Hshort. reflexivity.
Defined.

(** C3 as stated fails twice.  A later ["v="] wins over the first: the
    URL contains [v=abc&...] and extraction gives ["1"].  And a URL
    without ["v="] is returned whole as the identifier, so the primary
    provider is called with it. *)
Lemma video_id_extraction_counterexample :
  _get_video_id_from_url "https://www.youtube.com/watch?v=abc&priv=1" = Ok (Some "1")
  /\ PyStr.contains "v=" "https://youtu.be/abc" = false
  /\ _get_video_id_from_url "https://youtu.be/abc" = Ok (Some "https://youtu.be/abc")
  /\ _get_transcript w_primary "https://youtu.be/abc" (initial [] [])
     = (Ok ("a b", Some "yta"),
        add_calls [YTA_get_transcript "https://youtu.be/abc" ["en"; "ta"]] (initial [] [])).
Proof. repeat split. Qed.

(** C9.  When the primary provider answers, the transcript is the
    segments' texts in order joined by single spaces, tagged ['yta'],
    and the fallback provider is not called; segments ["a"], ["b"] give
    ["a b"]. *)
Theorem primary_transcript_joined w url vid segs s :
  _get_video_id_from_url url = Ok (Some vid) ->
  vid <> "" ->
  get_transcript w vid ["en"; "ta"] = Ok segs ->
  _get_transcript w url s =
    (Ok (String.concat " " (map seg_text segs), Some "yta"),
     add_calls [YTA_get_transcript vid ["en"; "ta"]] s)
  /\ (map seg_text segs = ["a"; "b"] ->
      fst (_get_transcript w url s) = Ok ("a b", Some "yta")).
Proof.
  intros Hid Hne Hp. pose proof (resolver_primary w url vid segs s Hid Hne Hp) as H.
  split; [exact H|]. intros Hab. rewrite H. cbn. unfold PyStr.join. now rewrite Hab.
Qed.

Lemma primary_transcript_joined_witness :
  _get_transcript w_primary "https://www.youtube.com/watch?v=new" (initial [] []) =
    (Ok ("a b", Some "yta"), add_calls [YTA_get_transcript "new" ["en"; "ta"]] (initial [] []))
  /\ fst (_get_transcript w_primary "https://www.youtube.com/watch?v=new" (initial [] []))
     = Ok ("a b", Some "yta").
Proof.
  destruct (primary_transcript_joined w_primary "https://www.youtube.com/watch?v=new" "new"
              [seg "a"; seg "b"] (initial [] [])) as [H1 H2];
    [reflexivity | discriminate | reflexivity |].
  split; [exact H1 | apply H2; reflexivity].
Defined.

(** C4.  After the primary provider raises one of its three expected
    conditions nothing is printed about it and the fallback provider is
    built from the URL; ['en'] is requested first and ['ta'] only when
    ['en'] has no track; the answer is the sentinel when neither
    language has a track and whenever the fallback raises. *)
Theorem expected_failure_falls_back w url vid e s :
  _get_video_id_from_url url = Ok (Some vid) ->
  vid <> "" ->
  get_transcript w vid ["en"; "ta"] = Raise e ->
  e = TranscriptsDisabled \/ e = NoTranscriptFound \/ e = CouldNotRetrieveTranscript ->
  exists r calls lines,
    _get_transcript w url s =
      (Ok r, add_log lines
               (add_calls (YTA_get_transcript vid ["en"; "ta"] :: Pytube_YouTube url :: calls) s))
    /\ Forall (fun line => String.prefix "Error with pytube: " line = true
                           \/ String.prefix "Unexpected error with pytube: " line = true) lines
    /\ match YouTube w url with
       | Raise _ => calls = [] /\ r = no_transcript
       | Ok yt =>
           match get_by_language_code yt "en" with
           | Raise _ => calls = [Pytube_get_by_language_code "en"] /\ r = no_transcript
           | Ok (Some c) =>
               calls = [Pytube_get_by_language_code "en"; Pytube_generate_srt_captions]
               /\ match generate_srt_captions c with
                  | Ok srt => r = (srt, Some "pytube")
                  | Raise _ => r = no_transcript
                  end
           | Ok None =>
               match get_by_language_code yt "ta" with
               | Raise _ =>
                   calls = [Pytube_get_by_language_code "en"; Pytube_get_by_language_code "ta"]
                   /\ r = no_transcript
               | Ok (Some c) =>
                   calls = [Pytube_get_by_language_code "en"; Pytube_get_by_language_code "ta";
                            Pytube_generate_srt_captions]
                   /\ match generate_srt_captions c with
                      | Ok srt => r = (srt, Some "pytube")
                      | Raise _ => r = no_transcript
                      end
               | Ok None =>
                   calls = [Pytube_get_by_language_code "en"; Pytube_get_by_language_code "ta"]
                   /\ r = no_transcript
               end
           end
       end.
Proof.
  intros Hid Hne Hp He.
  destruct (resolver_after_primary_failure w url vid e s Hid Hne Hp)
    as (r & calls & lines & Hrun & Hcases & Hlines).
  rewrite (expected_is_caught e He) in Hrun. cbn [app] in Hrun.
  exists r, calls, lines. split; [exact Hrun|]. split; [exact Hlines|].
  destruct (YouTube w url) as [tube|]; [|tauto].
  destruct (get_by_language_code tube "en") as [[c|]|]; [| |tauto].
  - destruct Hcases as [-> Hc]. split; [reflexivity|].
    destruct (generate_srt_captions c); tauto.
  - destruct (get_by_language_code tube "ta") as [[c|]|]; [| tauto | tauto].
    destruct Hcases as [-> Hc]. split; [reflexivity|].
    destruct (generate_srt_captions c); tauto.
Qed.

Lemma expected_failure_falls_back_witness :
  exists r calls lines,
    _get_transcript w_none "https://www.youtube.com/watch?v=new" (initial [] []) =
      (Ok r, add_log lines
               (add_calls (YTA_get_transcript "new" ["en"; "ta"]
                           :: Pytube_YouTube "https://www.youtube.com/watch?v=new" :: calls)
                  (initial [] [])))
    /\ calls = [Pytube_get_by_language_code "en"; Pytube_get_by_language_code "ta"]
    /\ r = no_transcript.
Proof.
  destruct (expected_failure_falls_back w_none "https://www.youtube.com/watch?v=new" "new"
              TranscriptsDisabled (initial [] []))
    as (r & calls & lines & Hrun & _ & Hcases);
    [reflexivity | discriminate | reflexivity | left; reflexivity |].
  exists r, calls, lines. split; [exact Hrun | exact Hcases].
Defined.

(** ** The existence checker *)

Section Checker.

Context (w : world).

Lemma find_existsb {A} (f : A -> bool) l :
  match List.find f l with Some _ => true | None => false end = existsb f l.
Proof. induction l as [|x l IH]; cbn; [reflexivity|]. destruct (f x); auto. Qed.

Lemma filter_existsb {A} (f : A -> bool) l :
  match length (List.filter f l) with 0 => false | S _ => true end = existsb f l.
Proof. induction l as [|x l IH]; cbn; [reflexivity|]. destruct (f x); auto. Qed.

Lemma found_doc_truthy field val d : field_is field val d = true -> truthy (PDict d) = true.
Proof.
  unfold field_is. intros H%bool_decide_eq_true. cbn.
  apply negb_true_iff, bool_decide_eq_false. intros ->.
  now rewrite lookup_empty in H.
Qed.

Lemma check_value_truthy s video_id : truthy (check_value s video_id) = present s video_id.
Proof.
  unfold check_value, present, in_store_a, py_or.
  rewrite <- (find_existsb _ (mongo_docs s)).
  destruct (List.find _ (mongo_docs s)) as [d|] eqn:E; cbn [of_find].
  - apply List.find_some in E as [_ E]. rewrite (found_doc_truthy _ _ _ E).
    exact (found_doc_truthy _ _ _ E).
  - reflexivity.
Qed.

Lemma check_returns video_id s :
  store_fault w (length (trace s)) (Mongo_find_one "video_id" video_id) = None ->
  store_fault w (S (length (trace s)))
    (Supabase_select supabase_table "video_id" "video_id" video_id) = None ->
  _check_if_video_exists w video_id s =
    (Ok (check_value s video_id),
     add_calls [Mongo_find_one "video_id" video_id;
                Supabase_select supabase_table "video_id" "video_id" video_id] s).
Proof.
  intros Ha Hb. unfold _check_if_video_exists, find_one, select_eq, store_call.
  monad_unfold. cbn. rewrite Ha. cbn.
  rewrite length_app, Nat.add_1_r. cbn. rewrite Hb. cbn.
  rewrite length_map, filter_existsb. apply f_equal2; [reflexivity | state_eq].
Qed.

Lemma check_store_b_fails video_id s e :
  store_fault w (length (trace s)) (Mongo_find_one "video_id" video_id) = None ->
  store_fault w (S (length (trace s)))
    (Supabase_select supabase_table "video_id" "video_id" video_id) = Some e ->
  _check_if_video_exists w video_id s =
    (Raise (AttributeError "type object 'ClientOptions' has no attribute 'APIError'"),
     add_calls [Mongo_find_one "video_id" video_id;
                Supabase_select supabase_table "video_id" "video_id" video_id] s).
Proof.
  intros Ha Hb. unfold _check_if_video_exists, find_one, select_eq, store_call.
  monad_unfold. cbn. rewrite Ha. cbn.
  rewrite length_app, Nat.add_1_r. cbn. rewrite Hb. cbn. outcome_eq.
Qed.

End Checker.

(** C1, on the code.  When the store-B query raises, whatever the
    exception and whatever store A holds, the check does not return:
    evaluating [supabase_exceptions.APIError] in the [except] clause
    raises [AttributeError], which leaves the method. *)
Theorem store_b_failure_escapes w video_id s e :
  store_fault w (length (trace s)) (Mongo_find_one "video_id" video_id) = None ->
  store_fault w (S (length (trace s)))
    (Supabase_select supabase_table "video_id" "video_id" video_id) = Some e ->
  fst (_check_if_video_exists w video_id s)
  = Raise (AttributeError "type object 'ClientOptions' has no attribute 'APIError'")
  /\ log (snd (_check_if_video_exists w video_id s)) = log s.
Proof.
  intros Ha Hb. rewrite (check_store_b_fails w video_id s e Ha Hb). split; reflexivity.
Qed.

Lemma store_b_failure_escapes_witness :
  in_store_a s_with_old "old" = true
  /\ fst (_check_if_video_exists w_store_b_down "old" s_with_old)
     = Raise (AttributeError "type object 'ClientOptions' has no attribute 'APIError'")
  /\ log (snd (_check_if_video_exists w_store_b_down "old" s_with_old)) = log s_with_old.
Proof.
  split; [reflexivity|].
  apply (store_b_failure_escapes w_store_b_down "old" s_with_old (APIError "JWT expired"));
    reflexivity.
Defined.

(** C8, as amended.  When both store queries return, the check returns
    a value that is truthy exactly when a store holds the identifier:
    the store-A document itself when store A has one, and otherwise the
    boolean that tells whether store B answered a row. *)
Theorem check_truthiness w video_id s :
  store_fault w (length (trace s)) (Mongo_find_one "video_id" video_id) = None ->
  store_fault w (S (length (trace s)))
    (Supabase_select supabase_table "video_id" "video_id" video_id) = None ->
  exists v,
    fst (_check_if_video_exists w video_id s) = Ok v
    /\ truthy v = present s video_id
    /\ match List.find (field_is "video_id" video_id) (mongo_docs s) with
       | Some d => v = PDict d
       | None => v = PBool (in_store_b s video_id)
       end.
Proof.
  intros Ha Hb. rewrite (check_returns w video_id s Ha Hb).
  exists (check_value s video_id). split; [reflexivity|].
  split; [apply check_value_truthy|].
  unfold check_value, py_or.
  destruct (List.find _ (mongo_docs s)) as [d|] eqn:E; cbn [of_find]; [|reflexivity].
  apply List.find_some in E as [_ E]. now rewrite (found_doc_truthy _ _ _ E).
Qed.

Lemma check_truthiness_witness :
  exists v,
    fst (_check_if_video_exists w_primary "new" s_with_old) = Ok v
    /\ truthy v = present s_with_old "new"
    /\ v = PBool false.
Proof.
  destruct (check_truthiness w_primary "new" s_with_old) as (v & H1 & H2 & H3);
    [reflexivity | reflexivity |].
  exists v. repeat split; [exact H1 | exact H2 | exact H3].
Defined.

(** C8 as stated fails: with a matching document in store A the check
    returns that document, which is not a boolean. *)
Lemma check_returns_document_counterexample :
  fst (_check_if_video_exists w_primary "old" s_with_old) = Ok (PDict old_doc)
  /\ is_bool (PDict old_doc) = false.
Proof. split; [vm_compute|]; reflexivity. Qed.

(** ** The dual-store writer *)

Section Writer.

Context (w : world).

Lemma with_id_other n record k : k <> "_id" -> with_id w n record !! k = record !! k.
Proof.
  intros Hk. unfold with_id. destruct (record !! "_id"); [reflexivity|].
  now rewrite lookup_insert_ne.
Qed.

Lemma with_id_stripped n record : delete "_id" (with_id w n record) = delete "_id" record.
Proof.
  unfold with_id. destruct (record !! "_id"); [reflexivity|]. apply delete_insert_eq.
Qed.

Lemma with_id_title n record : get_str (with_id w n record) "title" = get_str record "title".
Proof. unfold get_str. now rewrite with_id_other. Qed.

Lemma writer_store_a_fails record s e :
  let d := with_id w (length (trace s)) record in
  store_fault w (length (trace s)) (Mongo_insert_one d) = Some e ->
  _insert_video_data w record s =
    (Ok tt, add_log [error_line record e] (add_calls [Mongo_insert_one d] s)).
Proof.
  intros d Ha. unfold _insert_video_data, assign_id, insert_one_send, store_call.
  monad_unfold. cbn. fold (with_id w (length (trace s)) record). fold d.
  rewrite Ha. cbn. rewrite isinstance_Exception. cbn.
  unfold d, error_line. rewrite with_id_title. reflexivity.
Qed.

Lemma writer_store_b_fails record s e :
  let d := with_id w (length (trace s)) record in
  let row := delete "_id" record in
  store_fault w (length (trace s)) (Mongo_insert_one d) = None ->
  store_fault w (S (length (trace s))) (Supabase_insert supabase_table row) = Some e ->
  _insert_video_data w record s =
    (Ok tt,
     {| mongo_docs := mongo_docs s ++ [d];
        supabase_rows := supabase_rows s;
        trace := trace s ++ [Mongo_insert_one d; Supabase_insert supabase_table row];
        log := log s ++ [error_line record e] |}).
Proof.
  intros d row Ha Hb. unfold _insert_video_data, assign_id, insert_one_send,
    supabase_insert, store_call.
  subst d row. monad_unfold. cbn. fold (with_id w (length (trace s)) record).
  rewrite Ha. cbn. rewrite length_app, Nat.add_1_r. cbn.
  rewrite !with_id_stripped, Hb. cbn.
  rewrite isinstance_Exception. cbn. unfold error_line. rewrite with_id_title.
  apply f_equal2; [reflexivity | state_eq].
Qed.

Lemma writer_both_succeed record s :
  let d := with_id w (length (trace s)) record in
  let row := delete "_id" record in
  store_fault w (length (trace s)) (Mongo_insert_one d) = None ->
  store_fault w (S (length (trace s))) (Supabase_insert supabase_table row) = None ->
  _insert_video_data w record s =
    (Ok tt,
     {| mongo_docs := mongo_docs s ++ [d];
        supabase_rows := supabase_rows s ++ [row];
        trace := trace s ++ [Mongo_insert_one d; Supabase_insert supabase_table row];
        log := log s ++ [success_line record] |}).
Proof.
  intros d row Ha Hb. unfold _insert_video_data, assign_id, insert_one_send,
    supabase_insert, store_call.
  subst d row. monad_unfold. cbn. fold (with_id w (length (trace s)) record).
  rewrite Ha. cbn. rewrite length_app, Nat.add_1_r. cbn.
  rewrite !with_id_stripped, Hb. cbn.
  unfold success_line. rewrite with_id_other by discriminate.
  destruct (record !! "title") as [title|] eqn:Et; cbn.
  - apply f_equal2; [reflexivity | state_eq].
  - rewrite isinstance_Exception. cbn. unfold error_line.
    rewrite with_id_title. apply f_equal2; [reflexivity | state_eq].
Qed.

End Writer.

(** C5.  The writer sends the record to store A unchanged but for the
    identifier the driver adds, then sends store B the record without
    ["_id"]; when an insert fails, the line printed is
    ["Error inserting video data for <title>: <error>"] with the value
    of the record's ['title'] ([None] when the record has none); store
    B is not written after a store-A failure, a store-A write is kept
    after a store-B failure, and in every case the writer returns and
    what follows it runs. *)
Theorem dual_store_write w record s :
  let d := with_id w (length (trace s)) record in
  let row := delete "_id" record in
  let s' := snd (_insert_video_data w record s) in
  let title :=
    match record !! "title" with
    | Some (VStr t) => t
    | Some (VOid n) => pretty n
    | None => "None"
    end in
  let failure e := "Error inserting video data for " +:+ title +:+ ": " +:+ exn_str e in
  fst (_insert_video_data w record s) = Ok tt
  /\ (is_Some (record !! "_id") -> d = record)
  /\ (forall k, k <> "_id" -> d !! k = record !! k)
  /\ row !! "_id" = None
  /\ (forall k, k <> "_id" -> row !! k = record !! k)
  /\ match store_fault w (length (trace s)) (Mongo_insert_one d) with
     | Some e =>
         trace s' = trace s ++ [Mongo_insert_one d]
         /\ mongo_docs s' = mongo_docs s
         /\ supabase_rows s' = supabase_rows s
         /\ log s' = log s ++ [failure e]
     | None =>
         trace s' = trace s ++ [Mongo_insert_one d; Supabase_insert "youtube_videos" row]
         /\ mongo_docs s' = mongo_docs s ++ [d]
         /\ match store_fault w (S (length (trace s))) (Supabase_insert "youtube_videos" row) with
            | Some e =>
                supabase_rows s' = supabase_rows s
                /\ log s' = log s ++ [failure e]
            | None =>
                supabase_rows s' = supabase_rows s ++ [row]
                /\ log s' = log s ++ [match record !! "title" with
                                      | Some _ => "Successfully inserted video: " +:+ title
                                      | None => failure (KeyError "title")
                                      end]
            end
     end
  /\ (forall k : M unit, (_insert_video_data w record ;; k) s = k s').
Proof.
  intros d row s' title failure.
  assert (Hd : is_Some (record !! "_id") -> d = record).
  { intros [v Hv]. unfold d, with_id. now rewrite Hv. }
  assert (Hk : forall k, k <> "_id" -> d !! k = record !! k) by (intros; now apply with_id_other).
  assert (Hr : row !! "_id" = None) by apply lookup_delete_eq.
  assert (Hrk : forall k, k <> "_id" -> row !! k = record !! k).
  { intros k Hne. unfold row. now rewrite lookup_delete_ne. }
  assert (Hline : forall e, error_line record e = failure e).
  { intros e. unfold error_line, get_str, failure, title.
    destruct (record !! "title") as [[t|n]|]; reflexivity. }
  assert (Hsuccess : success_line record
                     = match record !! "title" with
                       | Some _ => "Successfully inserted video: " +:+ title
                       | None => failure (KeyError "title")
                       end).
  { unfold success_line. rewrite Hline. unfold title.
    destruct (record !! "title") as [[t|n]|]; reflexivity. }
  change "youtube_videos" with supabase_table.
  destruct (store_fault w (length (trace s)) (Mongo_insert_one d)) as [e|] eqn:Ha.
  - pose proof (writer_store_a_fails w record s e Ha) as H. subst s'.
    unfold bind. rewrite H, Hline. cbn. repeat split; auto.
  - destruct (store_fault w (S (length (trace s))) (Supabase_insert supabase_table row))
      as [e|] eqn:Hb.
    + pose proof (writer_store_b_fails w record s e Ha Hb) as H. subst s'.
      unfold bind. rewrite H, Hline. cbn. repeat split; auto.
    + pose proof (writer_both_succeed w record s Ha Hb) as H. subst s'.
      unfold bind. rewrite H, Hsuccess. cbn. repeat split; auto.
Qed.

(** A failed store-B insert is printed with the title of the record. *)
Example failure_names_the_title :
  log (snd (_insert_video_data w_insert_b_down
              (<["title" := VStr "Rocq in a day"]> (<["video_id" := VStr "v"]> ∅))
              (initial [] [])))
  = ["Error inserting video data for Rocq in a day: row violates policy"].
Proof. vm_compute. reflexivity. Qed.

(** A store-A success followed by a store-B failure. *)
Example writer_partial_failure :
  let record := <["title" := VStr "T"]> (<["video_id" := VStr "v"]> ∅) in
  let s' := snd (_insert_video_data w_insert_b_down record (initial [] [])) in
  fst (_insert_video_data w_insert_b_down record (initial [] [])) = Ok tt
  /\ length (mongo_docs s') = 1
  /\ supabase_rows s' = []
  /\ log s' = ["Error inserting video data for T: row violates policy"].
Proof. vm_compute. repeat split. Qed.

(** ** The run loop *)

Section Resolver_frame.

Context (w : world).

(** The resolver always returns, touches no store and makes transcript
    calls only. *)
Lemma resolver_frame url s :
  exists transcript tag calls lines,
    _get_transcript w url s = (Ok (transcript, tag), add_log lines (add_calls calls s))
    /\ forallb is_transcript_call calls = true.
Proof.
  destruct (video_id_total url) as [v Hv].
  destruct (string_dec v "") as [-> | Hne].
  - exists "No transcript available", None, [], [].
    rewrite add_log_nil, add_calls_nil. split; [|reflexivity].
    now apply resolver_short_circuit.
  - destruct (get_transcript w v ["en"; "ta"]) as [segs|e] eqn:Hp.
    + eexists _, _, _, []. rewrite add_log_nil. split.
      * exact (resolver_primary w url v segs s Hv Hne Hp).
      * reflexivity.
    + destruct (resolver_after_primary_failure w url v e s Hv Hne Hp)
        as ([transcript tag] & calls & lines & Hrun & Hcases & _).
      eexists _, _, _, _. split; [exact Hrun|].
      destruct (YouTube w url) as [tube|]; [|destruct Hcases as [-> _]; reflexivity].
      destruct (get_by_language_code tube "en") as [[c|]|];
        [| |destruct Hcases as [-> _]; reflexivity].
      * destruct Hcases as [-> _]; reflexivity.
      * destruct (get_by_language_code tube "ta") as [[c|]|];
          destruct Hcases as [-> _]; reflexivity.
Qed.

End Resolver_frame.

#[local] Arguments _get_transcript : simpl never.
#[local] Arguments _insert_video_data : simpl never.
#[local] Arguments _check_if_video_exists : simpl never.

Section Loop.

Context (w : world).
Hypothesis no_store_fault : forall n c, store_fault w n c = None.

Lemma video_record_no_id a b c d e f g : video_record a b c d e f g !! "_id" = None.
Proof. unfold video_record. now rewrite !lookup_insert_ne, lookup_empty by discriminate. Qed.

Lemma video_record_title a b c d e f g :
  video_record a b c d e f g !! "title" = Some (VStr b).
Proof.
  unfold video_record. rewrite !(lookup_insert_ne _ _ "title") by discriminate.
  apply lookup_insert_eq.
Qed.

Lemma process_item_skips item video_id s :
  it_id item = Some video_id ->
  present s video_id = true ->
  process_item w item s =
    (Ok tt, add_log ["Skipping existing video: " +:+ video_id]
              (add_calls (check_calls video_id) s)).
Proof.
  intros Hid Hp. unfold process_item. monad_unfold. rewrite Hid. cbn.
  rewrite (check_returns w video_id s) by apply no_store_fault.
  rewrite check_value_truthy, Hp. reflexivity.
Qed.

Lemma process_item_writes item video_id sn title published_at s :
  it_id item = Some video_id ->
  present s video_id = false ->
  it_snippet item = Some sn ->
  sn_title sn = Some title ->
  sn_publishedAt sn = Some published_at ->
  exists s', process_item w item s = (Ok tt, s') /\ iteration w item s s' true.
Proof.
  intros Hid Hp Hsn Ht Hpub.
  destruct (resolver_frame w (watch_url video_id) (add_calls (check_calls video_id) s))
    as (transcript & tag & calls & lines & Hrun & Hcalls).
  rewrite add_calls_add_calls in Hrun.
  eexists. split.
  2: { eapply iteration_write; eauto. }
  unfold process_item. monad_unfold. rewrite Hid. cbn.
  rewrite (check_returns w video_id s) by apply no_store_fault.
  rewrite check_value_truthy, Hp.
  change ("https://www.youtube.com/watch?v=" +:+ video_id) with (watch_url video_id).
  change (add_calls [Mongo_find_one "video_id" video_id;
                     Supabase_select supabase_table "video_id" "video_id" video_id] s)
    with (add_calls (check_calls video_id) s).
  rewrite Hrun. cbn. rewrite Hsn. cbn. rewrite Ht, Hpub. cbn.
  unfold datetime_now_isoformat, time_sleep. monad_unfold. cbn.
  match goal with
  | |- context [_insert_video_data w ?r ?S] =>
      pose proof (writer_both_succeed w r S (no_store_fault _ _) (no_store_fault _ _)) as Hw
  end.
  rewrite Hw. clear Hw. unfold with_id, success_line.
  rewrite video_record_no_id, video_record_title, (delete_id _ _ (video_record_no_id _ _ _ _ _ _ _)).
  cbn. apply f_equal2; [reflexivity|].
  apply state_ext; cbn; rewrite ?length_app, ?Nat.add_1_r; cbn;
    rewrite <- ?List.app_assoc; cbn; try reflexivity.
Qed.

Lemma process_item_iteration item s :
  well_formed item = true ->
  exists s' wrote, process_item w item s = (Ok tt, s') /\ iteration w item s s' wrote.
Proof.
  unfold well_formed. intros Hwf.
  destruct (it_id item) as [video_id|] eqn:Hid; [|discriminate].
  destruct (it_snippet item) as [sn|] eqn:Hsn; [|discriminate].
  destruct (sn_title sn) as [title|] eqn:Ht; [|discriminate].
  destruct (sn_publishedAt sn) as [published_at|] eqn:Hpub; [|discriminate].
  destruct (present s video_id) eqn:Hp.
  - eexists _, false. split.
    + exact (process_item_skips item video_id s Hid Hp).
    + exact (iteration_skip w item video_id s Hid Hp).
  - destruct (process_item_writes item video_id sn title published_at s) as (s' & H1 & H2);
      auto.
    now exists s', true.
Qed.

Lemma for_each_pass items : forall s,
  forallb well_formed items = true ->
  exists s' n, for_each (process_item w) items s = (Ok tt, s') /\ pass w items s s' n.
Proof.
  induction items as [|item items IH]; intros s Hwf.
  - exists s, 0. split; [reflexivity | constructor].
  - cbn [forallb] in Hwf. apply andb_true_iff in Hwf as [Hitem Hrest].
    destruct (process_item_iteration item s Hitem) as (s1 & wrote & Hrun & Hstep).
    destruct (IH s1 Hrest) as (s2 & n & Hloop & Hpass).
    exists s2, ((if wrote then 1 else 0) + n). split.
    + cbn [for_each]. unfold bind. now rewrite Hrun.
    + econstructor; eauto.
Qed.

End Loop.

(** What a pass adds to the trace. *)
Lemma count_calls_app p l1 l2 : count_calls p (l1 ++ l2) = count_calls p l1 + count_calls p l2.
Proof. unfold count_calls. now rewrite List.filter_app, length_app. Qed.

Lemma count_calls_none p q l :
  (forall c, q c = true -> p c = false) -> forallb q l = true -> count_calls p l = 0.
Proof.
  intros Hpq. induction l as [|c l IH]; [reflexivity|]. cbn [forallb].
  intros [Hc Hl]%andb_true_iff. unfold count_calls in *. cbn [List.filter].
  rewrite (Hpq c Hc). auto.
Qed.

Lemma iteration_trace w item s s' wrote :
  iteration w item s s' wrote ->
  exists added,
    trace s' = trace s ++ added
    /\ count_calls is_find_one added = 1
    /\ count_calls is_videos_list added = 0
    /\ count_calls is_mongo_insert added = (if wrote then 1 else 0)
    /\ count_calls is_supabase_insert added = (if wrote then 1 else 0)
    /\ count_calls is_sleep added = (if wrote then 1 else 0).
Proof.
  intros [item' video_id s0 Hid Hp
         |item' video_id sn title pub s0 transcript tag calls lines Hid Hp Hsn Ht Hpub Hrun Hcalls].
  - exists (check_calls video_id). repeat split.
  - eexists. split; [cbn [trace]; reflexivity|].
    rewrite !count_calls_app.
    rewrite (count_calls_none is_find_one is_transcript_call calls),
            (count_calls_none is_videos_list is_transcript_call calls),
            (count_calls_none is_mongo_insert is_transcript_call calls),
            (count_calls_none is_supabase_insert is_transcript_call calls),
            (count_calls_none is_sleep is_transcript_call calls);
      auto; try (intros []; cbn; congruence).
Qed.

Lemma pass_trace w items s s' n :
  pass w items s s' n ->
  exists added,
    trace s' = trace s ++ added
    /\ count_calls is_find_one added = length items
    /\ count_calls is_videos_list added = 0
    /\ count_calls is_mongo_insert added = n
    /\ count_calls is_supabase_insert added = n
    /\ count_calls is_sleep added = n.
Proof.
  induction 1 as [s|item items s s1 s2 wrote n Hstep Hpass IH].
  - exists []. rewrite List.app_nil_r. repeat split.
  - destruct (iteration_trace _ _ _ _ _ Hstep) as (a1 & T1 & F1 & L1 & M1 & B1 & P1).
    destruct IH as (a2 & T2 & F2 & L2 & M2 & B2 & P2).
    exists (a1 ++ a2). rewrite !count_calls_app, T2, T1, <- List.app_assoc.
    repeat split; cbn [length]; lia.
Qed.

(** A page of two items, one in store A and the other in neither store,
    in either order: one write cycle. *)
Lemma pass_two_items w i1 i2 v1 v2 s s' n :
  pass w [i1; i2] s s' n ->
  it_id i1 = Some v1 -> it_id i2 = Some v2 ->
  (in_store_a s v1 = true /\ present s v2 = false)
  \/ (present s v1 = false /\ in_store_a s v2 = true) ->
  n = 1.
Proof.
  intros Hpass H1 H2 Hcase.
  inversion Hpass as [|? ? ? s1 ? wrote1 n1 Hstep1 Hrest]; subst.
  inversion Hrest as [|? ? ? s2 ? wrote2 n2 Hstep2 Hnil]; subst.
  inversion Hnil; subst.
  inversion Hstep1 as [? video_id ? Hid Hp
                      |? video_id ? ? ? ? ? ? ? ? Hid Hp]; subst;
    assert (video_id = v1) by congruence; subst video_id;
    inversion Hstep2 as [? video_id ? Hid' Hp'
                        |? video_id ? ? ? ? ? ? ? ? Hid' Hp']; subst;
    assert (video_id = v2) by congruence; subst video_id;
    try reflexivity; exfalso;
    unfold present, in_store_a, in_store_b in *; cbn in *;
    rewrite ?existsb_app in *;
    destruct Hcase as [[Ha Hb] | [Ha Hb]];
    rewrite ?Ha, ?Hb in *; cbn in *; congruence.
Qed.

Lemma run_handler_logs e s : run_handler e s = (Ok tt, add_log [run_error_line e] s).
Proof.
  unfold run_handler, run_error_line. rewrite isinstance_Exception.
  now destruct (isinstance e CHttpError).
Qed.

(** C7.  [run] always returns: an exception raised by the listing call
    or anywhere in the loop is caught by one of the two handlers, which
    prints a line; nothing is called after a failed listing, and the
    exit status is 0 whether or not the run failed. *)
Theorem run_never_raises w s :
  fst (run w s) = Ok tt
  /\ exit_code (fst (run w s)) = 0
  /\ (forall e, videos_list_execute w "snippet" "like" 50 = Raise e ->
        run w s = (Ok tt, add_log [run_error_line e] (add_calls [listing] s)))
  /\ (forall e s1, run_body w s = (Raise e, s1) ->
        run w s = (Ok tt, add_log [run_error_line e] s1)).
Proof.
  assert (Hbody : forall e s1, run_body w s = (Raise e, s1) ->
                    run w s = (Ok tt, add_log [run_error_line e] s1)).
  { intros e s1 H. unfold run, try_except. rewrite H. apply run_handler_logs. }
  assert (Hok : fst (run w s) = Ok tt).
  { destruct (run_body w s) as [[[]|e] s1] eqn:E.
    - unfold run, try_except. now rewrite E.
    - now rewrite (Hbody e s1). }
  repeat split; [exact Hok | now rewrite Hok | | exact Hbody].
  intros e He. apply Hbody. unfold run_body. monad_unfold. now rewrite He.
Qed.

Lemma run_never_raises_witness :
  run w_listing_down (initial [] [])
  = (Ok tt, add_log ["YouTube API error: quotaExceeded"] (add_calls [listing] (initial [] []))).
Proof.
  destruct (run_never_raises w_listing_down (initial [] [])) as (_ & _ & H & _).
  apply (H (HttpError "quotaExceeded")). reflexivity.
Defined.

(** The code against the specification's turn *)

Lemma plain_id_round_trip v :
  plain_id v = true -> v <> "" /\ _get_video_id_from_url (watch_url v) = Ok (Some v).
Proof.
  unfold plain_id. intros [[Ht Hamp]%andb_true_iff Hv]%andb_true_iff.
  apply negb_true_iff in Hamp, Hv. split.
  - intros ->. discriminate Ht.
  - pose proof (video_id_of_url "https://www.youtube.com/watch?" v "") as H.
    rewrite PyStrFacts.app_empty_r in H. apply H; auto.
Qed.

Lemma resolver_meets_spec w v s :
  plain_id v = true ->
  exists tag lines,
    _get_transcript w (watch_url v) s
    = (Ok (fst (spec_transcript w (watch_url v) v), tag),
       add_log lines (add_calls (snd (spec_transcript w (watch_url v) v)) s)).
Proof.
  intros Hplain. destruct (plain_id_round_trip v Hplain) as [Hne Hid].
  unfold spec_transcript.
  destruct (get_transcript w v ["en"; "ta"]) as [segs|e] eqn:Hp.
  - exists (Some "yta"), []. rewrite add_log_nil.
    exact (resolver_primary w (watch_url v) v segs s Hid Hne Hp).
  - destruct (resolver_after_primary_failure w (watch_url v) v e s Hid Hne Hp)
      as ([text tag] & calls & lines & Hrun & Hcases & _).
    rewrite Hrun. exists tag. eexists.
    destruct (YouTube w (watch_url v)) as [tube|].
    2: { destruct Hcases as (-> & [= -> ->] & _). reflexivity. }
    destruct (get_by_language_code tube "en") as [[c|]|].
    3: { destruct Hcases as (-> & [= -> ->] & _). reflexivity. }
    + destruct Hcases as (-> & Hc). destruct (generate_srt_captions c).
      * destruct Hc as [[= -> ->] _]. reflexivity.
      * destruct Hc as [[= -> ->] _]. reflexivity.
    + destruct (get_by_language_code tube "ta") as [[c|]|].
      * destruct Hcases as (-> & Hc). destruct (generate_srt_captions c).
        -- destruct Hc as [[= -> ->] _]. reflexivity.
        -- destruct Hc as [[= -> ->] _]. reflexivity.
      * destruct Hcases as (-> & [= -> ->] & _). reflexivity.
      * destruct Hcases as (-> & [= -> ->] & _). reflexivity.
Qed.

Lemma record_as_specified a b c d e f g : video_record a b c d e f g = spec_record a b c d e f g.
Proof. reflexivity. Qed.

Lemma iteration_turn w item s s' wrote :
  has_plain_id item = true -> iteration w item s s' wrote -> turn w item s s' wrote.
Proof.
  intros Hplain Hstep. revert Hplain.
  destruct Hstep as
    [item' video_id s0 Hid Hp
    |item' video_id sn title pub s0 transcript tag calls lines Hid Hp Hsn Ht Hpub Hrun Hcalls];
    intros Hplain.
  - eapply turn_skip; eauto.
  - unfold has_plain_id in Hplain. rewrite Hid in Hplain.
    destruct (resolver_meets_spec w video_id (add_calls (check_calls video_id) s0) Hplain)
      as (tag' & lines' & Hspec).
    rewrite Hrun in Hspec.
    pose proof (f_equal (fun p => trace (snd p)) Hspec) as Hstate.
    pose proof (f_equal fst Hspec) as Hres. injection Hres as Htext _.
    cbn [trace snd add_log add_calls] in Hstate.
    rewrite <- List.app_assoc in Hstate.
    apply List.app_inv_head in Hstate. apply List.app_inv_head in Hstate.
    subst transcript calls.
    eapply turn_write; eauto.
Qed.

Lemma pass_turns w items s s' n :
  forallb has_plain_id items = true -> pass w items s s' n -> turns w items s s' n.
Proof.
  intros Hplain Hpass. induction Hpass as [s|item items s s1 s2 wrote n Hstep Hpass IH].
  - constructor.
  - cbn [forallb] in Hplain. apply andb_true_iff in Hplain as [Hitem Hrest].
    apply (turns_more w item items s s1 s2 wrote n);
      [apply iteration_turn; assumption | apply IH; assumption].
Qed.

(** C6.  With stores that answer, a listing that returns no more items
    than asked for, and items that carry a plain identifier and the keys
    the loop reads, a run makes one listing request, asking for 50
    items, so that at most 50 are processed; then it takes one turn of
    the loop per returned item, as the specification words it: an item
    present in a store is skipped after the two queries, any other goes
    through the provider calls of the resolver, the record with its
    seven fields, the insert into store A, the insert into store B and
    the pause of one second.  A page of two items, one in store A and
    the other in neither store, gives exactly one write cycle. *)
Theorem run_processes_first_page w s resp :
  (forall n c, store_fault w n c = None) ->
  honours_max_results w ->
  videos_list_execute w "snippet" "like" 50 = Ok resp ->
  let page := default [] (items resp) in
  forallb well_formed page = true ->
  forallb has_plain_id page = true ->
  exists s' n added,
    run w s = (Ok tt, s')
    /\ trace s' = trace s ++ Videos_list "snippet" "like" 50 :: added
    /\ count_calls is_videos_list added = 0
    /\ count_calls is_find_one added = length page
    /\ length page <= 50
    /\ turns w page (add_log [found_line page] (add_calls [listing] s)) s' n
    /\ count_calls is_mongo_insert added = n
    /\ count_calls is_supabase_insert added = n
    /\ count_calls is_sleep added = n
    /\ (forall i1 i2 v1 v2,
          page = [i1; i2] -> it_id i1 = Some v1 -> it_id i2 = Some v2 ->
          (in_store_a s v1 = true /\ present s v2 = false)
          \/ (present s v1 = false /\ in_store_a s v2 = true) ->
          n = 1).
Proof.
  intros Hnf Hmax Hlist page Hwf Hplain.
  destruct (for_each_pass w Hnf page (add_log [found_line page] (add_calls [listing] s)) Hwf)
    as (s' & n & Hloop & Hpass).
  destruct (pass_trace _ _ _ _ _ Hpass) as (added & T & F & L & M & B & P).
  exists s', n, added.
  assert (Hrun : run w s = (Ok tt, s')).
  { unfold run, try_except, run_body. monad_unfold. rewrite Hlist. cbn.
    fold page. unfold found_line, listing in Hloop. now rewrite Hloop. }
  split; [exact Hrun|]. split.
  { rewrite T. cbn. now rewrite <- List.app_assoc. }
  split; [exact L|]. split; [exact F|].
  split; [exact (Hmax "snippet" "like" 50 resp Hlist)|].
  split; [now apply pass_turns|].
  repeat split; auto.
  intros i1 i2 v1 v2 Hpage H1 H2 Hcase. rewrite Hpage in Hpass.
  eapply pass_two_items; eauto.
Qed.

Lemma run_processes_first_page_witness :
  exists s' n added,
    run w_paged s_with_first = (Ok tt, s')
    /\ trace s' = trace s_with_first ++ Videos_list "snippet" "like" 50 :: added
    /\ turns w_paged
         [item "dQw4w9WgXcQ" "Old video" "2024-01-01T00:00:00Z";
          item "9bZkp7q19f0" "New video" "2024-02-01T00:00:00Z"]
         (add_log ["Found 2 liked videos to process."]
            (add_calls [Videos_list "snippet" "like" 50] s_with_first)) s' n
    /\ n = 1
    /\ count_calls is_find_one added = 2
    /\ count_calls is_mongo_insert added = 1
    /\ count_calls is_supabase_insert added = 1
    /\ count_calls is_sleep added = 1.
Proof.
  destruct (run_processes_first_page w_paged s_with_first
              {| items := Some [item "dQw4w9WgXcQ" "Old video" "2024-01-01T00:00:00Z";
                                item "9bZkp7q19f0" "New video" "2024-02-01T00:00:00Z"] |})
    as (s' & n & added & Hrun & Htrace & _ & Hfind & _ & Hturns & Ha & Hb & Hsleep & Htwo).
  - reflexivity.
  - intros part rating n r [= <-]. cbn [items default]. apply List.firstn_le_length.
  - reflexivity.
  - reflexivity.
  - reflexivity.
  - assert (Hn : n = 1).
    { apply (Htwo _ _ "dQw4w9WgXcQ" "9bZkp7q19f0" eq_refl); [reflexivity | reflexivity |].
      left. split; reflexivity. }
    rewrite Hn in *. exists s', 1, added. repeat split; assumption.
Defined.

(** C10.  When the primary provider raises, whatever the exception, and
    the fallback has a caption track in ['en'] or else in ['ta'], the
    resolver returns the text that [generate_srt_captions] produced,
    unchanged, with the tag ['pytube']; the record stores the resolved
    text as it is, so a record holds SRT text or space-joined text
    according to the provider that answered. *)
Theorem fallback_text_verbatim w url vid e yt c srt s :
  _get_video_id_from_url url = Ok (Some vid) ->
  vid <> "" ->
  get_transcript w vid ["en"; "ta"] = Raise e ->
  YouTube w url = Ok yt ->
  (get_by_language_code yt "en" = Ok (Some c)
   \/ (get_by_language_code yt "en" = Ok None /\ get_by_language_code yt "ta" = Ok (Some c))) ->
  generate_srt_captions c = Ok srt ->
  fst (_get_transcript w url s) = Ok (srt, Some "pytube")
  /\ (forall video_id title published_at description youtube_url added_at,
        video_record video_id title published_at description youtube_url added_at srt
          !! "transcript" = Some (VStr srt)).
Proof.
  intros Hid Hne Hp Hyt Hcap Hsrt. split.
  - destruct (resolver_after_primary_failure w url vid e s Hid Hne Hp)
      as (r & calls & lines & Hrun & Hcases & _).
    rewrite Hrun. cbn [fst]. rewrite Hyt in Hcases.
    destruct Hcap as [Hen | [Hen Hta]].
    + rewrite Hen, Hsrt in Hcases. now destruct Hcases as (_ & -> & _).
    + rewrite Hen, Hta, Hsrt in Hcases. now destruct Hcases as (_ & -> & _).
  - intros. unfold video_record. apply lookup_insert_eq.
Qed.

Lemma fallback_text_verbatim_witness :
  fst (_get_transcript w_fallback "https://www.youtube.com/watch?v=new" (initial [] []))
  = Ok (srt_sample, Some "pytube").
Proof.
  apply (fallback_text_verbatim w_fallback "https://www.youtube.com/watch?v=new" "new"
           TranscriptsDisabled (english_only (Ok srt_sample))
           {| generate_srt_captions := Ok srt_sample |} srt_sample (initial [] []));
    [reflexivity | discriminate | reflexivity | reflexivity | left; reflexivity | reflexivity].
Defined.

(** The same words come out differently from the two providers. *)
Example transcript_format_depends_on_provider :
  fst (_get_transcript w_primary "https://www.youtube.com/watch?v=new" (initial [] []))
  = Ok ("a b", Some "yta")
  /\ fst (_get_transcript w_fallback "https://www.youtube.com/watch?v=new" (initial [] []))
     = Ok (srt_sample, Some "pytube")
  /\ srt_sample <> "a b".
Proof. repeat split. discriminate. Qed.

(** ** Construction *)

#[local] Arguments _get_youtube_service : simpl never.

Section Construction.

Context (w : world).

(** Obtaining the YouTube service makes authentication calls only. *)
Lemma auth_frame s :
  exists r calls,
    _get_youtube_service w s = (r, add_calls calls s)
    /\ forallb is_auth_call calls = true.
Proof.
  unfold _get_youtube_service, run_flow. monad_unfold. cbn.
  destruct (token_exists w); cbn.
  - destruct (from_authorized_user_file w) as [c|]; cbn.
    2: { eexists _, _. split; [outcome_eq | reflexivity]. }
    destruct (valid c); cbn.
    { destruct (build w); eexists _, _; (split; [outcome_eq | reflexivity]). }
    destruct (expired c && negb (py_not (refresh_token c))); cbn.
    + destruct (refresh w); cbn.
      2: { eexists _, _. split; [outcome_eq | reflexivity]. }
      destruct (token_write w); cbn.
      2: { eexists _, _. split; [outcome_eq | reflexivity]. }
      destruct (build w); eexists _, _; (split; [outcome_eq | reflexivity]).
    + destruct (from_client_secrets_file w); cbn.
      2: { eexists _, _. split; [outcome_eq | reflexivity]. }
      destruct (run_local_server w); cbn.
      2: { eexists _, _. split; [outcome_eq | reflexivity]. }
      destruct (token_write w); cbn.
      2: { eexists _, _. split; [outcome_eq | reflexivity]. }
      destruct (build w); eexists _, _; (split; [outcome_eq | reflexivity]).
  - destruct (from_client_secrets_file w); cbn.
    2: { eexists _, _. split; [outcome_eq | reflexivity]. }
    destruct (run_local_server w); cbn.
    2: { eexists _, _. split; [outcome_eq | reflexivity]. }
    destruct (token_write w); cbn.
    2: { eexists _, _. split; [outcome_eq | reflexivity]. }
    destruct (build w); eexists _, _; (split; [outcome_eq | reflexivity]).
Qed.

Lemma init_without_mongo_uri s s1 :
  _get_youtube_service w s = (Ok tt, s1) ->
  py_not (MONGO_URI w) = true ->
  __init__ w s = (Raise (ValueError mongo_message), s1).
Proof.
  intros Hauth Hm. unfold __init__, _setup_mongo_client. monad_unfold.
  now rewrite Hauth, Hm.
Qed.

Lemma init_without_supabase s s1 :
  _get_youtube_service w s = (Ok tt, s1) ->
  py_not (MONGO_URI w) = false ->
  new_MongoClient w (default "" (MONGO_URI w)) = Ok tt ->
  py_not (SUPABASE_URL w) || py_not (SUPABASE_KEY w) = true ->
  __init__ w s =
    (Raise (ValueError supabase_message),
     add_calls [MongoClient_new (default "" (MONGO_URI w))] s1).
Proof.
  intros Hauth Hm Hc Hs.
  unfold __init__, _setup_mongo_client, _setup_supabase_client. monad_unfold.
  rewrite Hauth, Hm. cbn. rewrite Hc, Hs. reflexivity.
Qed.

End Construction.

(** C2, as amended.  When a required environment value is missing (unset
    or empty), the YouTube service has been obtained and, if only a
    store-B value is missing, the store-A client has been built, then
    construction raises the [ValueError] that names the missing value;
    up to then only authentication calls and the construction of the
    store-A client have been made: no store is queried, nothing is
    listed and no transcript is asked for. *)
Theorem missing_environment_raises w s s1 :
  _get_youtube_service w s = (Ok tt, s1) ->
  (py_not (MONGO_URI w) = true
   \/ (new_MongoClient w (default "" (MONGO_URI w)) = Ok tt
       /\ py_not (SUPABASE_URL w) || py_not (SUPABASE_KEY w) = true)) ->
  exists msg auth clients,
    __init__ w s = (Raise (ValueError msg), add_calls (auth ++ clients) s)
    /\ s1 = add_calls auth s
    /\ forallb is_auth_call auth = true
    /\ (if py_not (MONGO_URI w)
        then msg = mongo_message /\ clients = []
        else msg = supabase_message
             /\ clients = [MongoClient_new (default "" (MONGO_URI w))])
    /\ count_calls is_store_call (auth ++ clients) = 0
    /\ count_calls is_videos_list (auth ++ clients) = 0
    /\ count_calls is_transcript_call (auth ++ clients) = 0.
Proof.
  intros Hauth Hmissing.
  destruct (auth_frame w s) as (r & auth & Hframe & Hcalls).
  rewrite Hauth in Hframe. injection Hframe as <- ->.
  assert (Hnone : forall p clients,
             (forall c, is_auth_call c = true -> p c = false) ->
             count_calls p clients = 0 -> count_calls p (auth ++ clients) = 0).
  { intros p clients Hp Hc. rewrite count_calls_app, Hc.
    now rewrite (count_calls_none p is_auth_call auth). }
  destruct (py_not (MONGO_URI w)) eqn:Hm.
  - exists mongo_message, auth, []. rewrite List.app_nil_r.
    split; [now apply init_without_mongo_uri|].
    repeat split; auto;
      apply (count_calls_none _ is_auth_call); auto; intros []; cbn; congruence.
  - destruct Hmissing as [? | [Hc Hs]]; [discriminate|].
    exists supabase_message, auth, [MongoClient_new (default "" (MONGO_URI w))].
    rewrite <- add_calls_add_calls.
    split; [now apply init_without_supabase|].
    repeat split; auto; apply Hnone; auto; intros []; cbn; congruence.
Qed.

Lemma missing_environment_raises_witness :
  exists auth,
    __init__ w_no_supabase_key (initial [] [])
    = (Raise (ValueError supabase_message),
       add_calls (auth ++ [MongoClient_new "mongodb://db"]) (initial [] []))
    /\ forallb is_auth_call auth = true.
Proof.
  destruct (missing_environment_raises w_no_supabase_key (initial [] [])
              (add_calls [Path_exists "token.json"; Credentials_from_file "token.json";
                          Discovery_build "youtube" "v3"] (initial [] [])))
    as (msg & auth & clients & Hinit & _ & Hauth & [-> ->] & _);
    [reflexivity | right; split; reflexivity |].
  exists auth. split; [exact Hinit | exact Hauth].
Defined.

(** C2 as stated fails.  With [MONGO_URI] unset and an expired saved
    token, the token is refreshed over the network before the error is
    raised; and with a saved token that cannot be parsed, construction
    fails with that error, not with the one about the environment. *)
Lemma missing_environment_counterexample :
  py_not (MONGO_URI w_no_mongo_uri) = true
  /\ __init__ w_no_mongo_uri (initial [] [])
     = (Raise (ValueError mongo_message),
        add_calls [Path_exists "token.json"; Credentials_from_file "token.json";
                   Credentials_refresh; File_write "token.json";
                   Discovery_build "youtube" "v3"] (initial [] []))
  /\ contacts_network Credentials_refresh = true
  /\ py_not (MONGO_URI w_bad_token) = true
  /\ fst (__init__ w_bad_token (initial [] []))
     = Raise (OtherError "Expecting value: line 1 column 1 (char 0)").
Proof. repeat split. Qed.

(** In a run, the escaping [AttributeError] of the existence check
    reaches the second handler of [run]: the first store-B failure ends
    the run, although store A holds the first video. *)
Example run_ends_when_store_b_is_down :
  run w_store_b_down s_with_old
  = (Ok tt,
     {| mongo_docs := [old_doc];
        supabase_rows := [];
        trace := [Videos_list "snippet" "like" 50;
                  Mongo_find_one "video_id" "old";
                  Supabase_select "youtube_videos" "video_id" "video_id" "old"];
        log := ["Found 2 liked videos to process.";
                "An unexpected error occurred: type object 'ClientOptions' has no attribute 'APIError'"] |}).
Proof. vm_compute. reflexivity. Qed.

(** * Further properties of the code *)

(** ** Splitting and the extracted identifier *)

Module SplitFacts.
Import PyStr PyStrFacts.

Lemma skip_drops sep p : forall cur t,
  split_from sep (String.length p) cur (p +:+ t) = split_from sep 0 cur t.
Proof.
  induction p as [|c p IH]; intros cur t; [reflexivity|].
  rewrite app_cons. cbn [String.length split_from]. apply IH.
Qed.

Lemma prefix_decompose sep : forall s,
  String.prefix sep s = true -> exists t, s = sep +:+ t.
Proof.
  induction sep as [|a sep IH]; intros s H.
  - exists s. reflexivity.
  - destruct s as [|c s]; [discriminate H|]. cbn [String.prefix] in H.
    destruct (Ascii.ascii_dec a c) as [->|]; [|discriminate H].
    destruct (IH s H) as [t ->]. exists t. reflexivity.
Qed.

Lemma concat_cons sep x l :
  l <> [] -> String.concat sep (x :: l) = x +:+ sep +:+ String.concat sep l.
Proof. destruct l; [congruence | reflexivity]. Qed.

Lemma join_split_from a sep n : forall s cur,
  String.length s <= n ->
  String.concat (String a sep) (split_from (String a sep) 0 cur s) = cur +:+ s.
Proof.
  induction n as [n IH] using lt_wf_ind. intros s cur Hlen.
  destruct s as [|c s].
  - cbn. now rewrite app_empty_r.
  - cbn [split_from].
    destruct (String.prefix (String a sep) (String c s)) eqn:Hp.
    + destruct (prefix_decompose _ _ Hp) as [t Ht].
      rewrite app_cons in Ht. injection Ht as -> ->.
      cbn [String.length Nat.sub]. rewrite Nat.sub_0_r, skip_drops.
      rewrite concat_cons by apply split_from_nonempty.
      rewrite (IH (String.length t)); [| |lia].
      * rewrite app_empty_l. reflexivity.
      * cbn [String.length] in Hlen.
        assert (String.length (sep +:+ t) = String.length sep + String.length t) as E.
        { clear. induction sep as [|x sep IH]; [reflexivity|].
          rewrite app_cons. cbn [String.length]. now rewrite IH. }
        lia.
    + rewrite (IH (String.length s)); cbn [String.length] in Hlen; [|lia|lia].
      now rewrite app_assoc.
Qed.

Lemma contains_amp_char c s :
  contains "&" (String c s) = (if Ascii.ascii_dec "&" c then true else contains "&" s).
Proof.
  cbn [contains String.prefix]. destruct (Ascii.ascii_dec "&" c); [|reflexivity].
  destruct s; reflexivity.
Qed.

Lemma contains_amp_snoc cur c :
  contains "&" cur = false -> c <> "&"%char ->
  contains "&" (cur +:+ String c EmptyString) = false.
Proof.
  intros Hcur Hc. induction cur as [|x cur IH].
  - rewrite app_empty_l, contains_amp_char.
    destruct (Ascii.ascii_dec "&" c); [congruence | reflexivity].
  - rewrite app_cons, contains_amp_char. rewrite contains_amp_char in Hcur.
    destruct (Ascii.ascii_dec "&" x); [discriminate | auto].
Qed.

Lemma split_amp_head s : forall cur,
  contains "&" cur = false ->
  exists h l, split_from "&" 0 cur s = h :: l /\ contains "&" h = false.
Proof.
  induction s as [|c s IH]; intros cur Hcur.
  - exists cur, []. split; [reflexivity | exact Hcur].
  - cbn [split_from]. destruct (String.prefix "&" (String c s)) eqn:Hp.
    + eexists _, _. split; [reflexivity | exact Hcur].
    + apply IH. apply contains_amp_snoc; [exact Hcur|].
      intros ->. destruct s; cbn in Hp; discriminate Hp.
Qed.

End SplitFacts.

(** X1.  [s.split(sep)] loses nothing: for a non-empty separator,
    joining the pieces with the separator gives the string back. *)
Theorem split_then_join a sep s :
  PyStr.join (String a sep) (PyStr.split (String a sep) s) = s.
Proof.
  unfold PyStr.join, PyStr.split.
  now rewrite (SplitFacts.join_split_from a sep (String.length s)).
Qed.

(** X2.  For every URL the extraction returns a string: the [IndexError]
    branch that would give [None] is never taken, nothing is raised, and
    the string returned contains no ['&']. *)
Theorem video_id_never_none url :
  exists v, _get_video_id_from_url url = Ok (Some v) /\ PyStr.contains "&" v = false.
Proof.
  unfold _get_video_id_from_url, PyStr.split.
  destruct (PyStr.split_from "v=" 0 "" url) as [|x l] eqn:E.
  { now apply PyStrFacts.split_from_nonempty in E. }
  cbn [index_last].
  destruct (SplitFacts.split_amp_head (List.last l x) "" eq_refl) as (h & t & -> & Hh).
  exists h. split; [reflexivity | exact Hh].
Qed.

(** X3.  A URL with neither ["v="] nor ['&'] is returned whole as the
    identifier, so unless it is empty the resolver asks the primary
    provider for a transcript of the URL itself. *)
Theorem url_without_v_is_its_own_id w url s :
  PyStr.contains "v=" url = false ->
  PyStr.contains "&" url = false ->
  _get_video_id_from_url url = Ok (Some url)
  /\ (url <> "" ->
      exists r calls lines,
        _get_transcript w url s
        = (Ok r, add_log lines (add_calls (YTA_get_transcript url ["en"; "ta"] :: calls) s))).
Proof.
  intros Hv Hamp.
  assert (Hid : _get_video_id_from_url url = Ok (Some url)).
  { unfold _get_video_id_from_url, PyStr.split.
    rewrite (PyStrFacts.split_from_absent _ _ Hv). cbn [index_last List.last].
    rewrite PyStrFacts.app_empty_l, (PyStrFacts.split_from_absent _ _ Hamp).
    reflexivity. }
  split; [exact Hid|]. intros Hne.
  destruct (get_transcript w url ["en"; "ta"]) as [segs|e] eqn:Hp.
  - eexists _, [], []. rewrite add_log_nil.
    exact (resolver_primary w url url segs s Hid Hne Hp).
  - destruct (resolver_after_primary_failure w url url e s Hid Hne Hp)
      as (r & calls & lines & Hrun & _).
    eexists _, _, _. exact Hrun.
Qed.

Lemma url_without_v_is_its_own_id_witness :
  _get_video_id_from_url "https://youtu.be/abc" = Ok (Some "https://youtu.be/abc").
Proof.
  apply (url_without_v_is_its_own_id w_primary "https://youtu.be/abc" (initial [] []));
    reflexivity.
Defined.

(** X4.  The URL that [run] builds from an identifier gives the
    identifier back, provided the identifier contains neither ['&'] nor
    ["v="]. *)
Theorem watch_url_round_trip video_id :
  PyStr.contains "&" video_id = false ->
  PyStr.contains "v=" video_id = false ->
  _get_video_id_from_url (watch_url video_id) = Ok (Some video_id).
Proof.
  intros Hamp Hv.
  pose proof (video_id_of_url "https://www.youtube.com/watch?" video_id "") as H.
  rewrite PyStrFacts.app_empty_r in H. apply H; auto.
Qed.

Lemma watch_url_round_trip_witness :
  _get_video_id_from_url (watch_url "dQw4w9WgXcQ") = Ok (Some "dQw4w9WgXcQ").
Proof. apply watch_url_round_trip; reflexivity. Defined.

(** ** The resolver, whatever the providers do *)

(** X5.  The resolver never raises and never touches a store.  It makes
    at most five calls, all to transcript providers, and prints at most
    two lines; the tag is ['yta'], ['pytube'] or [None], and a [None]
    tag always comes with the text ["No transcript available"]. *)
Theorem resolver_always_answers w url s :
  exists text tag calls lines,
    _get_transcript w url s = (Ok (text, tag), add_log lines (add_calls calls s))
    /\ forallb is_transcript_call calls = true
    /\ length calls <= 5
    /\ length lines <= 2
    /\ (tag = Some "yta" \/ tag = Some "pytube" \/ tag = None)
    /\ (tag = None -> text = "No transcript available").
Proof.
  destruct (video_id_total url) as [v Hv].
  destruct (string_dec v "") as [-> | Hne].
  - exists "No transcript available", None, [], [].
    rewrite add_log_nil, add_calls_nil.
    split; [now apply resolver_short_circuit|]. cbn. repeat split; auto; lia.
  - destruct (get_transcript w v ["en"; "ta"]) as [segs|e] eqn:Hp.
    + eexists _, _, _, []. rewrite add_log_nil.
      split; [exact (resolver_primary w url v segs s Hv Hne Hp)|].
      cbn. repeat split; auto; try lia. discriminate.
    + destruct (resolver_after_primary_failure w url v e s Hv Hne Hp)
        as ([text tag] & calls & lines & Hrun & Hcases & _).
      eexists _, _, _, _. split; [exact Hrun|].
      assert (Hfirst : length (if isinstance e CCouldNotRetrieveTranscript then []
                               else ["Error with youtube-transcript-api: " +:+ exn_str e]) <= 1).
      { destruct (isinstance e CCouldNotRetrieveTranscript); cbn; lia. }
      rewrite length_app.
      assert (Hshape :
        forallb is_transcript_call calls = true /\ length calls <= 3 /\ length lines <= 1
        /\ ((text, tag) = no_transcript \/ tag = Some "pytube")).
      { destruct (YouTube w url) as [tube|].
        2: { destruct Hcases as (-> & -> & ->). cbn. repeat split; auto; lia. }
        destruct (get_by_language_code tube "en") as [[c|]|].
        3: { destruct Hcases as (-> & -> & ->). cbn. repeat split; auto; lia. }
        - destruct Hcases as (-> & Hc). destruct (generate_srt_captions c).
          + destruct Hc as [Hr ->]. injection Hr as -> ->. cbn. repeat split; auto; lia.
          + destruct Hc as [-> ->]. cbn. repeat split; auto; lia.
        - destruct (get_by_language_code tube "ta") as [[c|]|].
          + destruct Hcases as (-> & Hc). destruct (generate_srt_captions c).
            * destruct Hc as [Hr ->]. injection Hr as -> ->. cbn. repeat split; auto; lia.
            * destruct Hc as [-> ->]. cbn. repeat split; auto; lia.
          + destruct Hcases as (-> & -> & ->). cbn. repeat split; auto; lia.
          + destruct Hcases as (-> & -> & ->). cbn. repeat split; auto; lia. }
      destruct Hshape as (Hcalls & Hlen & Hlines & Hres).
      cbn [forallb is_transcript_call andb length]. repeat split; auto; try lia.
      * destruct Hres as [Hr | ->]; [injection Hr as -> ->|]; auto.
      * intros ->. destruct Hres as [Hr | Hr]; [now injection Hr as ->|discriminate].
Qed.

(** X6.  When the primary provider raises anything other than its three
    expected conditions, the error is printed with the prefix
    ["Error with youtube-transcript-api: "] and the fallback provider is
    still built from the URL. *)
Theorem unexpected_primary_error_is_printed w url vid e s :
  _get_video_id_from_url url = Ok (Some vid) ->
  vid <> "" ->
  get_transcript w vid ["en"; "ta"] = Raise e ->
  isinstance e CCouldNotRetrieveTranscript = false ->
  exists r calls lines,
    _get_transcript w url s =
      (Ok r, add_log (("Error with youtube-transcript-api: " +:+ exn_str e) :: lines)
               (add_calls (YTA_get_transcript vid ["en"; "ta"] :: Pytube_YouTube url :: calls) s)).
Proof.
  intros Hid Hne Hp He.
  destruct (resolver_after_primary_failure w url vid e s Hid Hne Hp)
    as (r & calls & lines & Hrun & _).
  rewrite He in Hrun. now exists r, calls, lines.
Qed.

Lemma unexpected_primary_error_is_printed_witness :
  exists r calls lines,
    _get_transcript w_rate_limited "https://www.youtube.com/watch?v=new" (initial [] []) =
      (Ok r, add_log ("Error with youtube-transcript-api: 429 Too Many Requests" :: lines)
               (add_calls (YTA_get_transcript "new" ["en"; "ta"]
                           :: Pytube_YouTube "https://www.youtube.com/watch?v=new" :: calls)
                  (initial [] []))).
Proof.
  apply (unexpected_primary_error_is_printed w_rate_limited
           "https://www.youtube.com/watch?v=new" "new" (OtherError "429 Too Many Requests"));
    [reflexivity | discriminate | reflexivity | reflexivity].
Defined.

(** ** The existence check, whatever the stores do *)

Lemma check_store_a_fails w video_id s e :
  store_fault w (length (trace s)) (Mongo_find_one "video_id" video_id) = Some e ->
  _check_if_video_exists w video_id s
  = (Raise e, add_calls [Mongo_find_one "video_id" video_id] s).
Proof.
  intros Ha. unfold _check_if_video_exists, find_one, store_call.
  monad_unfold. cbn. now rewrite Ha.
Qed.

(** X7.  A failure of the store-A query is not handled by the check: the
    exception leaves the method as it is and store B is not queried. *)
Theorem store_a_failure_propagates w video_id s e :
  store_fault w (length (trace s)) (Mongo_find_one "video_id" video_id) = Some e ->
  _check_if_video_exists w video_id s
  = (Raise e, add_calls [Mongo_find_one "video_id" video_id] s).
Proof. apply check_store_a_fails. Qed.

Lemma store_a_failure_propagates_witness :
  _check_if_video_exists w_store_a_down "old" s_with_old
  = (Raise (OtherError "ServerSelectionTimeoutError"),
     add_calls [Mongo_find_one "video_id" "old"] s_with_old).
Proof. apply store_a_failure_propagates. reflexivity. Defined.

(** X8.  Whatever the stores answer, the check writes to no store and
    prints nothing (the line of its handler is never printed); it
    queries store A, then store B unless store A failed, and store B is
    queried even when store A has a match. *)
Theorem check_only_reads w video_id s :
  let s' := snd (_check_if_video_exists w video_id s) in
  mongo_docs s' = mongo_docs s
  /\ supabase_rows s' = supabase_rows s
  /\ log s' = log s
  /\ match store_fault w (length (trace s)) (Mongo_find_one "video_id" video_id) with
     | Some _ => trace s' = trace s ++ [Mongo_find_one "video_id" video_id]
     | None => trace s' = trace s ++ check_calls video_id
     end.
Proof.
  destruct (store_fault w (length (trace s)) (Mongo_find_one "video_id" video_id))
    as [e|] eqn:Ha.
  - rewrite (check_store_a_fails w video_id s e Ha). repeat split.
  - destruct (store_fault w (S (length (trace s)))
                (Supabase_select supabase_table "video_id" "video_id" video_id))
      as [e|] eqn:Hb.
    + rewrite (check_store_b_fails w video_id s e Ha Hb). repeat split.
    + rewrite (check_returns w video_id s Ha Hb). repeat split.
Qed.

(** ** A run, whatever the collaborators do *)

Lemma paced_app l1 l2 : paced l1 -> paced l2 -> paced (l1 ++ l2).
Proof.
  induction 1 as [|c calls Hc H IH|d calls H IH|d table row calls H IH]; intros H2; cbn.
  - exact H2.
  - apply paced_quiet; auto.
  - apply paced_a; auto.
  - apply paced_ab; auto.
Qed.

Lemma paced_all_quiet calls : forallb is_quiet calls = true -> paced calls.
Proof.
  induction calls as [|c calls IH]; [constructor|]. cbn [forallb].
  intros [Hc H]%andb_true_iff. constructor; auto.
Qed.

Lemma run_frame_refl s : run_frame s s [].
Proof.
  unfold run_frame. rewrite List.app_nil_r. repeat split; auto.
  - exists []. now rewrite List.app_nil_r.
  - exists [], []. rewrite !List.app_nil_r. repeat split; auto.
  - constructor.
Qed.

Lemma stripped_of_mono docs1 docs2 row :
  stripped_of docs1 row \/ stripped_of docs2 row -> stripped_of (docs1 ++ docs2) row.
Proof.
  intros [(d & Hd & ->) | (d & Hd & ->)]; exists d; split; auto; apply in_or_app; auto.
Qed.

Lemma run_frame_trans s s1 s2 a1 a2 :
  run_frame s s1 a1 -> run_frame s1 s2 a2 -> run_frame s s2 (a1 ++ a2).
Proof.
  intros (T1 & (l1 & L1) & (d1 & r1 & M1 & B1 & F1 & Hr1 & Hd1) & V1 & P1 & Q1 & O1)
         (T2 & (l2 & L2) & (d2 & r2 & M2 & B2 & F2 & Hr2 & Hd2) & V2 & P2 & Q2 & O2).
  unfold run_frame. rewrite !count_calls_app.
  repeat split; try lia; try (now apply paced_app).
  - now rewrite T2, T1, List.app_assoc.
  - exists (l1 ++ l2). now rewrite L2, L1, List.app_assoc.
  - exists (d1 ++ d2), (r1 ++ r2). rewrite M2, M1, B2, B1, !List.app_assoc, !length_app.
    repeat split; try lia.
    apply Forall_app. split.
    + eapply Forall_impl; [exact F1|]. intros row H. apply stripped_of_mono. auto.
    + eapply Forall_impl; [exact F2|]. intros row H. apply stripped_of_mono. auto.
Qed.

Lemma run_frame_quiet s calls lines :
  forallb is_quiet calls = true ->
  run_frame s (add_log lines (add_calls calls s)) calls.
Proof.
  intros Hq. unfold run_frame.
  rewrite (count_calls_none is_videos_list is_quiet calls),
          (count_calls_none is_sleep is_quiet calls),
          (count_calls_none is_mongo_insert is_quiet calls),
          (count_calls_none is_supabase_insert is_quiet calls); auto;
    try (intros []; cbn; congruence).
  repeat split; auto.
  - now exists lines.
  - exists [], []. cbn. rewrite !List.app_nil_r. repeat split; auto.
  - now apply paced_all_quiet.
Qed.

Lemma transcript_calls_quiet calls :
  forallb is_transcript_call calls = true -> forallb is_quiet calls = true.
Proof.
  induction calls as [|c calls IH]; [reflexivity|]. cbn [forallb].
  intros [Hc H]%andb_true_iff. rewrite (IH H), andb_true_r. now destruct c.
Qed.

Lemma write_cycle_frame w record s :
  exists s' added,
    (_insert_video_data w record ;; time_sleep 1) s = (Ok tt, s')
    /\ run_frame s s' added.
Proof.
  unfold bind, time_sleep, called.
  destruct (store_fault w (length (trace s))
              (Mongo_insert_one (with_id w (length (trace s)) record))) as [e|] eqn:Ha.
  - rewrite (writer_store_a_fails w record s e Ha).
    eexists _, [Mongo_insert_one _; Time_sleep 1]. split; [reflexivity|].
    unfold run_frame. cbn. repeat split; auto.
    + now rewrite <- List.app_assoc.
    + eexists. reflexivity.
    + exists [], []. rewrite !List.app_nil_r. repeat split; auto; cbn; lia.
    + apply paced_a, paced_nil.
  - destruct (store_fault w (S (length (trace s)))
                (Supabase_insert supabase_table (delete "_id" record))) as [e|] eqn:Hb.
    + rewrite (writer_store_b_fails w record s e Ha Hb).
      eexists _, [Mongo_insert_one _; Supabase_insert _ _; Time_sleep 1].
      split; [reflexivity|].
      unfold run_frame. cbn. repeat split; auto.
      * now rewrite <- List.app_assoc.
      * eexists. reflexivity.
      * eexists [_], []. rewrite !List.app_nil_r. repeat split; auto; cbn; lia.
      * apply paced_ab, paced_nil.
    + rewrite (writer_both_succeed w record s Ha Hb).
      eexists _, [Mongo_insert_one _; Supabase_insert _ _; Time_sleep 1].
      split; [reflexivity|].
      unfold run_frame. cbn. repeat split; auto.
      * now rewrite <- List.app_assoc.
      * eexists. reflexivity.
      * eexists [_], [_]. repeat split; auto; try (cbn; lia).
        constructor; [|constructor].
        eexists. split; [left; reflexivity|]. now rewrite with_id_stripped.
      * apply paced_ab, paced_nil.
Qed.

Lemma check_frame w video_id s :
  exists r calls,
    _check_if_video_exists w video_id s = (r, add_calls calls s)
    /\ forallb is_quiet calls = true
    /\ (forall v, r = Ok v -> truthy v = present s video_id).
Proof.
  destruct (store_fault w (length (trace s)) (Mongo_find_one "video_id" video_id))
    as [e|] eqn:Ha.
  - rewrite (check_store_a_fails w video_id s e Ha). eexists _, _.
    split; [reflexivity|]. split; [reflexivity|]. discriminate.
  - destruct (store_fault w (S (length (trace s)))
                (Supabase_select supabase_table "video_id" "video_id" video_id))
      as [e|] eqn:Hb.
    + rewrite (check_store_b_fails w video_id s e Ha Hb). eexists _, _.
      split; [reflexivity|]. split; [reflexivity|]. discriminate.
    + rewrite (check_returns w video_id s Ha Hb). eexists _, _.
      split; [reflexivity|]. split; [reflexivity|].
      intros v [= <-]. apply check_value_truthy.
Qed.

Lemma process_item_frame w item s :
  exists r s' added, process_item w item s = (r, s') /\ run_frame s s' added.
Proof.
  unfold process_item. monad_unfold.
  destruct (it_id item) as [video_id|]; cbn.
  2: { eexists _, _, _. split; [reflexivity | apply run_frame_refl]. }
  destruct (check_frame w video_id s) as (r & calls & Hcheck & Hquiet & _).
  rewrite Hcheck. destruct r as [v|e].
  2: { eexists _, _, _. split; [reflexivity|].
       rewrite <- (add_log_nil (add_calls calls s)). now apply run_frame_quiet. }
  destruct (truthy v).
  { eexists _, _, _. split; [reflexivity|]. now apply run_frame_quiet. }
  change ("https://www.youtube.com/watch?v=" +:+ video_id) with (watch_url video_id).
  destruct (resolver_frame w (watch_url video_id) (add_calls calls s))
    as (transcript & tag & tcalls & lines & Hrun & Htcalls).
  rewrite Hrun. cbn.
  assert (Hres : run_frame s (add_log lines (add_calls tcalls (add_calls calls s)))
                   (calls ++ tcalls)).
  { rewrite add_calls_add_calls. apply run_frame_quiet.
    rewrite forallb_app, Hquiet. now apply transcript_calls_quiet. }
  destruct (it_snippet item) as [sn|]; cbn.
  2: { eexists _, _, _. split; [reflexivity | exact Hres]. }
  destruct (sn_title sn) as [title|]; cbn.
  2: { eexists _, _, _. split; [reflexivity | exact Hres]. }
  destruct (sn_publishedAt sn) as [published_at|]; cbn.
  2: { eexists _, _, _. split; [reflexivity | exact Hres]. }
  unfold datetime_now_isoformat. monad_unfold. cbn.
  match goal with
  | |- context [_insert_video_data w ?r ?S] =>
      destruct (write_cycle_frame w r S) as (s' & added & Hw & Hframe)
  end.
  unfold bind, time_sleep, called in Hw.
  match type of Hw with
  | (let (_, _) := ?X in _) = _ => destruct X as [[[]|e] s1] eqn:E
  end; [|discriminate Hw].
  injection Hw as <-.
  eexists _, _, _. split; [reflexivity|].
  eapply run_frame_trans; [exact Hres|].
  eapply run_frame_trans; [|exact Hframe].
  rewrite <- (add_log_nil (add_calls [Datetime_now] _)).
  now apply run_frame_quiet.
Qed.

Lemma for_each_frame w items : forall s,
  exists r s' added,
    for_each (process_item w) items s = (r, s') /\ run_frame s s' added.
Proof.
  induction items as [|item items IH]; intros s.
  - eexists _, _, _. split; [reflexivity | apply run_frame_refl].
  - destruct (process_item_frame w item s) as (r & s1 & a1 & Hrun & Hf1).
    cbn [for_each]. unfold bind. rewrite Hrun. destruct r as [[]|e].
    + destruct (IH s1) as (r2 & s2 & a2 & Hloop & Hf2). rewrite Hloop.
      eexists _, _, _. split; [reflexivity|]. eapply run_frame_trans; eauto.
    + eexists _, _, _. split; [reflexivity | exact Hf1].
Qed.

Lemma run_frame_log s s' added line : run_frame s s' added -> run_frame s (add_log [line] s') added.
Proof.
  intros (T & (l & L) & Hstores & V). unfold run_frame. cbn. repeat split; try tauto.
  exists (l ++ [line]). now rewrite L, List.app_assoc.
Qed.

Lemma run_frame_print s lines : run_frame s (add_log lines s) [].
Proof.
  pose proof (run_frame_quiet s [] lines eq_refl) as H. now rewrite add_calls_nil in H.
Qed.

Lemma run_frame_after_listing w s :
  exists added, run_frame (add_calls [listing] s) (snd (run w s)) added.
Proof.
  unfold run, try_except, run_body. monad_unfold. cbn.
  destruct (videos_list_execute w "snippet" "like" 50) as [resp|e]; cbn.
  - match goal with
    | |- context [for_each (process_item w) ?l ?S] =>
        destruct (for_each_frame w l S) as (r & s' & added & Hloop & Hframe)
    end.
    rewrite Hloop. exists added.
    assert (H0 : run_frame (add_calls [listing] s) s' added).
    { replace added with ([] ++ added) by reflexivity.
      eapply run_frame_trans; [|exact Hframe].
      apply run_frame_print. }
    destruct r as [[]|e]; cbn; [exact H0|].
    rewrite run_handler_logs. cbn. now apply run_frame_log.
  - exists []. rewrite run_handler_logs. cbn. apply run_frame_print.
Qed.

(** X9.  Whatever the collaborators do, a run makes exactly one listing
    request, as its first call.  In what follows, every attempt to
    insert into store A is followed at once by the pause of one second,
    or by the insert into store B and then the pause, whether the
    inserts succeeded or not; there is no pause and no store-B insert
    anywhere else. *)
Theorem run_call_pattern w s :
  exists added,
    trace (snd (run w s)) = trace s ++ Videos_list "snippet" "like" 50 :: added
    /\ count_calls is_videos_list added = 0
    /\ paced added
    /\ count_calls is_sleep added = count_calls is_mongo_insert added
    /\ count_calls is_supabase_insert added <= count_calls is_mongo_insert added.
Proof.
  destruct (run_frame_after_listing w s) as (added & T & _ & _ & V & P & Q & O).
  exists added. cbn in T. rewrite <- List.app_assoc in T. auto.
Qed.

(** The calls of a run in which store B rejects the insert: the pause
    still follows the two inserts. *)
Example pause_follows_failed_write :
  trace (snd (run w_insert_b_down s_with_old))
  = [Videos_list "snippet" "like" 50;
     Mongo_find_one "video_id" "old";
     Supabase_select "youtube_videos" "video_id" "video_id" "old";
     Mongo_find_one "video_id" "new";
     Supabase_select "youtube_videos" "video_id" "video_id" "new";
     YTA_get_transcript "new" ["en"; "ta"];
     Datetime_now;
     Mongo_insert_one
       (<["_id" := VOid 7]>
          (spec_record "new" "New video" "2024-02-01T00:00:00Z" ""
             "https://www.youtube.com/watch?v=new" "2024-05-01T10:00:00" "a b"));
     Supabase_insert "youtube_videos"
       (spec_record "new" "New video" "2024-02-01T00:00:00Z" ""
          "https://www.youtube.com/watch?v=new" "2024-05-01T10:00:00" "a b");
     Time_sleep 1].
Proof. vm_compute. reflexivity. Qed.

(** X10.  Whatever the collaborators do, a run only appends: the
    documents and rows that were stored stay as they were and in place,
    every new store-B row is one of the new store-A documents without
    its ["_id"], and no more rows than documents are added. *)
Theorem run_only_appends w s :
  exists docs rows,
    mongo_docs (snd (run w s)) = mongo_docs s ++ docs
    /\ supabase_rows (snd (run w s)) = supabase_rows s ++ rows
    /\ Forall (stripped_of docs) rows
    /\ length rows <= length docs.
Proof.
  destruct (run_frame_after_listing w s)
    as (added & _ & _ & (docs & rows & M & B & F & Hr & _) & _).
  exists docs, rows. auto.
Qed.

Lemma field_is_stripped v d : field_is "video_id" v (delete "_id" d) = field_is "video_id" v d.
Proof. unfold field_is. now rewrite lookup_delete_ne. Qed.

(** X11.  If every identifier held by store B is also held by store A
    before a run, the same is true after it, whichever calls failed. *)
Theorem store_b_stays_within_store_a w s :
  (forall v, in_store_b s v = true -> in_store_a s v = true) ->
  forall v, in_store_b (snd (run w s)) v = true -> in_store_a (snd (run w s)) v = true.
Proof.
  intros Hinv v.
  destruct (run_frame_after_listing w s)
    as (added & _ & _ & (docs & rows & M & B & F & _) & _).
  unfold in_store_a, in_store_b in *. cbn in M, B. rewrite M, B, !existsb_app.
  intros [Hold | Hnew]%orb_true_iff.
  - now rewrite (Hinv v Hold).
  - apply orb_true_iff. right.
    apply existsb_exists in Hnew as (row & Hrow & Hfield).
    rewrite Forall_forall in F.
    destruct (F row) as (d & Hd & ->); [now apply list_elem_of_In|].
    rewrite field_is_stripped in Hfield.
    apply existsb_exists. eauto.
Qed.

Lemma store_b_stays_within_store_a_witness :
  in_store_a (snd (run w_primary s_with_old)) "new" = true.
Proof.
  apply (store_b_stays_within_store_a w_primary s_with_old);
    [intros v H; discriminate H | reflexivity].
Defined.

(** ** Running again *)

Lemma present_same_stores s s' v :
  mongo_docs s' = mongo_docs s -> supabase_rows s' = supabase_rows s ->
  present s' v = present s v.
Proof. unfold present, in_store_a, in_store_b. now intros -> ->. Qed.

Lemma present_grows s s' docs rows v :
  mongo_docs s' = mongo_docs s ++ docs -> supabase_rows s' = supabase_rows s ++ rows ->
  present s v = true -> present s' v = true.
Proof.
  unfold present, in_store_a, in_store_b. intros -> ->. rewrite !existsb_app.
  intros [H | H]%orb_true_iff; rewrite H; cbn; rewrite ?orb_true_r; reflexivity.
Qed.

Lemma field_is_record vid oid t p d u a tr :
  field_is "video_id" vid (<["_id" := oid]> (video_record vid t p d u a tr)) = true.
Proof.
  unfold field_is. apply bool_decide_eq_true.
  rewrite lookup_insert_ne by discriminate. unfold video_record.
  rewrite !(lookup_insert_ne _ _ "video_id") by discriminate.
  apply lookup_insert_eq.
Qed.

Lemma iteration_presence w item s s' wrote :
  iteration w item s s' wrote ->
  (forall v, present s v = true -> present s' v = true)
  /\ (forall v, it_id item = Some v -> present s' v = true).
Proof.
  intros [item' video_id s0 Hid Hp
         |item' video_id sn title pub s0 transcript tag calls lines Hid Hp Hsn Ht Hpub Hrun Hcalls].
  - split.
    + intros v Hv. exact Hv.
    + intros v Hv. assert (v = video_id) by congruence. subst v. exact Hp.
  - split.
    + intros v Hv. eapply present_grows; [reflexivity | reflexivity | exact Hv].
    + intros v Hv. assert (v = video_id) by congruence. subst v.
      unfold present, in_store_a. cbn [mongo_docs]. rewrite existsb_app. cbn [existsb].
      subst document record. rewrite field_is_record.
      cbn. now rewrite orb_true_r.
Qed.

Lemma pass_presence w items s s' n :
  pass w items s s' n ->
  (forall v, present s v = true -> present s' v = true)
  /\ (forall item v, In item items -> it_id item = Some v -> present s' v = true).
Proof.
  induction 1 as [s|item items s s1 s2 wrote n Hstep Hpass [IHmono IHall]].
  - split; [auto | intros ? ? []].
  - destruct (iteration_presence _ _ _ _ _ Hstep) as [Hmono Hitem]. split.
    + auto.
    + intros item' v [<- | Hin] Hid; eauto.
Qed.

Section Again.

Context (w : world).
Hypothesis no_store_fault : forall n c, store_fault w n c = None.

Lemma all_present_all_skipped items : forall s,
  forallb well_formed items = true ->
  (forall item v, In item items -> it_id item = Some v -> present s v = true) ->
  exists s' added,
    for_each (process_item w) items s = (Ok tt, s')
    /\ mongo_docs s' = mongo_docs s
    /\ supabase_rows s' = supabase_rows s
    /\ trace s' = trace s ++ added
    /\ forallb is_quiet added = true
    /\ count_calls is_find_one added = length items.
Proof.
  induction items as [|item items IH]; intros s Hwf Hall.
  - exists s, []. rewrite List.app_nil_r. repeat split.
  - cbn [forallb] in Hwf. apply andb_true_iff in Hwf as [Hitem Hrest].
    unfold well_formed in Hitem.
    destruct (it_id item) as [video_id|] eqn:Hid; [|discriminate].
    assert (Hp : present s video_id = true) by (apply (Hall item); [left|]; auto).
    pose proof (process_item_skips w no_store_fault item video_id s Hid Hp) as Hskip.
    destruct (IH (add_log ["Skipping existing video: " +:+ video_id]
                    (add_calls (check_calls video_id) s)) Hrest)
      as (s' & added & Hloop & M & B & T & Q & F).
    { intros item' v Hin Hv.
      change (present s v = true). apply (Hall item'); [right|]; auto. }
    exists s', (check_calls video_id ++ added).
    cbn [for_each]. unfold bind. rewrite Hskip, Hloop.
    rewrite count_calls_app, F, forallb_app, Q. cbn in T.
    repeat split; auto. now rewrite T, <- List.app_assoc.
Qed.

End Again.

(** X12.  With stores that answer and well-formed items, running again
    over the same page writes nothing: after the first run every item
    of the page is found in a store, so the second run checks each item,
    makes no insert and no pause, and leaves both stores as they are. *)
Theorem second_run_writes_nothing w s resp :
  (forall n c, store_fault w n c = None) ->
  videos_list_execute w "snippet" "like" 50 = Ok resp ->
  forallb well_formed (default [] (items resp)) = true ->
  let s1 := snd (run w s) in
  exists s2 added,
    run w s1 = (Ok tt, s2)
    /\ mongo_docs s2 = mongo_docs s1
    /\ supabase_rows s2 = supabase_rows s1
    /\ trace s2 = trace s1 ++ Videos_list "snippet" "like" 50 :: added
    /\ count_calls is_find_one added = length (default [] (items resp))
    /\ count_calls is_mongo_insert added = 0
    /\ count_calls is_supabase_insert added = 0
    /\ count_calls is_sleep added = 0.
Proof.
  intros Hnf Hlist Hwf s1.
  set (page := default [] (items resp)) in *.
  destruct (for_each_pass w Hnf page (add_log [found_line page] (add_calls [listing] s)) Hwf)
    as (s1' & n & Hloop & Hpass).
  assert (Hs1 : s1 = s1').
  { unfold s1, run, try_except, run_body. monad_unfold. rewrite Hlist. cbn.
    fold page. unfold found_line, listing in Hloop. now rewrite Hloop. }
  destruct (pass_presence _ _ _ _ _ Hpass) as [_ Hall]. rewrite <- Hs1 in Hall.
  destruct (all_present_all_skipped w Hnf page
              (add_log [found_line page] (add_calls [listing] s1)) Hwf)
    as (s2 & added & Hloop2 & M & B & T & Q & F).
  { intros item v Hin Hid. change (present s1 v = true). eauto. }
  exists s2, added. split.
  { unfold run, try_except, run_body. monad_unfold. rewrite Hlist. cbn.
    fold page. unfold found_line, listing in Hloop2. now rewrite Hloop2. }
  cbn in M, B, T. rewrite <- List.app_assoc in T.
  repeat split; auto;
    apply (count_calls_none _ is_quiet); auto; intros []; cbn; congruence.
Qed.

Lemma second_run_writes_nothing_witness :
  exists s2 added,
    run w_primary (snd (run w_primary s_with_old)) = (Ok tt, s2)
    /\ mongo_docs s2 = mongo_docs (snd (run w_primary s_with_old))
    /\ supabase_rows s2 = supabase_rows (snd (run w_primary s_with_old))
    /\ count_calls is_mongo_insert added = 0.
Proof.
  destruct (second_run_writes_nothing w_primary s_with_old
              {| items := Some [item "old" "Old video" "2024-01-01T00:00:00Z";
                                item "new" "New video" "2024-02-01T00:00:00Z"] |})
    as (s2 & added & Hrun & M & B & _ & _ & Hins & _);
    [reflexivity | reflexivity | reflexivity |].
  exists s2, added. auto.
Defined.

(** ** Pages and items that lack something *)

(** X13.  When the listing answers no item, an empty ['items'] or none
    at all, the run prints that it found 0 videos and stops: no store
    and no provider is called. *)
Theorem empty_page_does_nothing w s resp :
  videos_list_execute w "snippet" "like" 50 = Ok resp ->
  default [] (items resp) = [] ->
  run w s
  = (Ok tt, add_log ["Found 0 liked videos to process."]
              (add_calls [Videos_list "snippet" "like" 50] s)).
Proof.
  intros Hlist Hempty. unfold run, try_except, run_body. monad_unfold.
  rewrite Hlist. cbn. rewrite Hempty. reflexivity.
Qed.

Lemma empty_page_does_nothing_witness :
  run w_no_items s_with_old
  = (Ok tt, add_log ["Found 0 liked videos to process."]
              (add_calls [Videos_list "snippet" "like" 50] s_with_old)).
Proof. apply (empty_page_does_nothing w_no_items s_with_old {| items := None |}); reflexivity. Defined.

(** X14.  An item without ['id'] ends the run at once: the [KeyError]
    is printed by the second handler of [run], and neither that item
    nor any item after it reaches a store or a provider. *)
Theorem item_without_id_ends_run w s resp item rest :
  videos_list_execute w "snippet" "like" 50 = Ok resp ->
  default [] (items resp) = item :: rest ->
  it_id item = None ->
  run w s
  = (Ok tt, add_log [found_line (item :: rest); "An unexpected error occurred: 'id'"]
              (add_calls [Videos_list "snippet" "like" 50] s)).
Proof.
  intros Hlist Hpage Hid. unfold run, try_except, run_body. monad_unfold.
  rewrite Hlist. cbn. rewrite Hpage. cbn [for_each]. unfold bind.
  unfold process_item at 1. monad_unfold. rewrite Hid. cbn.
  rewrite run_handler_logs. apply f_equal2; [reflexivity | state_eq].
Qed.

Lemma item_without_id_ends_run_witness :
  run w_item_without_id s_with_old
  = (Ok tt, add_log ["Found 2 liked videos to process.";
                     "An unexpected error occurred: 'id'"]
              (add_calls [Videos_list "snippet" "like" 50] s_with_old)).
Proof.
  apply (item_without_id_ends_run w_item_without_id s_with_old
           {| items := Some [item_without_id; item "new" "New video" "2024-02-01T00:00:00Z"] |}
           item_without_id [item "new" "New video" "2024-02-01T00:00:00Z"]);
    reflexivity.
Defined.

(** X15.  For an item that is in neither store and lacks ['snippet'],
    ['title'] or ['publishedAt'], the [KeyError] comes only after the
    transcript has been resolved: both stores have been queried and the
    providers asked, and nothing is written. *)
Theorem missing_key_raises_after_transcript w item video_id key s :
  it_id item = Some video_id ->
  store_fault w (length (trace s)) (Mongo_find_one "video_id" video_id) = None ->
  store_fault w (S (length (trace s)))
    (Supabase_select supabase_table "video_id" "video_id" video_id) = None ->
  present s video_id = false ->
  missing_key item = Some key ->
  exists calls lines,
    process_item w item s
    = (Raise (KeyError key), add_log lines (add_calls (check_calls video_id ++ calls) s))
    /\ forallb is_transcript_call calls = true.
Proof.
  intros Hid Ha Hb Hp Hkey.
  destruct (resolver_frame w (watch_url video_id) (add_calls (check_calls video_id) s))
    as (transcript & tag & calls & lines & Hrun & Hcalls).
  rewrite add_calls_add_calls in Hrun.
  exists calls, lines. split; [|exact Hcalls].
  unfold process_item. monad_unfold. rewrite Hid. cbn.
  rewrite (check_returns w video_id s Ha Hb), check_value_truthy, Hp.
  change ("https://www.youtube.com/watch?v=" +:+ video_id) with (watch_url video_id).
  change (add_calls [Mongo_find_one "video_id" video_id;
                     Supabase_select supabase_table "video_id" "video_id" video_id] s)
    with (add_calls (check_calls video_id) s).
  rewrite Hrun. cbn. unfold missing_key in Hkey.
  destruct (it_snippet item) as [sn|]; cbn; [|now injection Hkey as <-].
  destruct (sn_title sn); cbn; [|now injection Hkey as <-].
  destruct (sn_publishedAt sn); cbn; [discriminate | now injection Hkey as <-].
Qed.

Lemma missing_key_raises_after_transcript_witness :
  exists calls lines,
    process_item w_primary item_without_title s_with_old
    = (Raise (KeyError "title"),
       add_log lines (add_calls (check_calls "new" ++ calls) s_with_old))
    /\ forallb is_transcript_call calls = true.
Proof.
  apply (missing_key_raises_after_transcript w_primary item_without_title "new" "title"
           s_with_old); reflexivity.
Defined.

(** X16.  In a write cycle the row sent to store B is the record of
    lines 143-151: it has exactly the seven keys of the record, holds
    the identifier, the URL built from it, the title and date of the
    snippet, an empty description when the snippet has none, and the
    resolved text; the document sent to store A is that row with an
    ["_id"].  The provenance tag is not stored. *)
Theorem written_record w item video_id sn title published_at s :
  (forall n c, store_fault w n c = None) ->
  it_id item = Some video_id ->
  present s video_id = false ->
  it_snippet item = Some sn ->
  sn_title sn = Some title ->
  sn_publishedAt sn = Some published_at ->
  exists s' transcript tag added_at oid,
    process_item w item s = (Ok tt, s')
    /\ fst (_get_transcript w (watch_url video_id) (add_calls (check_calls video_id) s))
       = Ok (transcript, tag)
    /\ let row := video_record video_id title published_at (default "" (sn_description sn))
                    (watch_url video_id) added_at transcript in
       supabase_rows s' = supabase_rows s ++ [row]
       /\ mongo_docs s' = mongo_docs s ++ [<["_id" := VOid oid]> row]
       /\ dom row = record_keys
       /\ row !! "description" = Some (VStr (default "" (sn_description sn))).
Proof.
  intros Hnf Hid Hp Hsn Ht Hpub.
  destruct (process_item_writes w Hnf item video_id sn title published_at s Hid Hp Hsn Ht Hpub)
    as (s' & Hrun & Hstep).
  inversion Hstep as [|? vid sn' title' pub' ? transcript tag calls lines
                        Hid' Hp' Hsn' Ht' Hpub' Hres Hcalls]; subst.
  assert (vid = video_id) by congruence. subst vid.
  assert (sn' = sn) by congruence. subst sn'.
  assert (title' = title) by congruence. subst title'.
  assert (pub' = published_at) by congruence. subst pub'.
  eexists _, transcript, tag, _, _. split; [exact Hrun|].
  split; [now rewrite Hres|]. cbn. repeat split.
Qed.

Lemma written_record_witness :
  exists s' transcript tag added_at oid,
    process_item w_primary (item "new" "New video" "2024-02-01T00:00:00Z") s_with_old
    = (Ok tt, s')
    /\ fst (_get_transcript w_primary (watch_url "new") (add_calls (check_calls "new") s_with_old))
       = Ok (transcript, tag)
    /\ let row := video_record "new" "New video" "2024-02-01T00:00:00Z" ""
                    (watch_url "new") added_at transcript in
       supabase_rows s' = supabase_rows s_with_old ++ [row]
       /\ mongo_docs s' = mongo_docs s_with_old ++ [<["_id" := VOid oid]> row]
       /\ dom row = record_keys
       /\ row !! "description" = Some (VStr "").
Proof.
  apply (written_record w_primary (item "new" "New video" "2024-02-01T00:00:00Z") "new"
           {| sn_title := Some "New video"; sn_publishedAt := Some "2024-02-01T00:00:00Z";
              sn_description := None |} "New video" "2024-02-01T00:00:00Z" s_with_old);
    reflexivity.
Defined.

(** ** Authentication, construction and the script *)

(** X17.  With a saved token that is still valid, the YouTube service is
    built from it directly: the token is not refreshed, no login flow is
    run and the token file is not rewritten. *)
Theorem valid_token_needs_no_login w s c :
  token_exists w = true ->
  from_authorized_user_file w = Ok c ->
  valid c = true ->
  _get_youtube_service w s
  = (build w, add_calls [Path_exists "token.json"; Credentials_from_file "token.json";
                         Discovery_build "youtube" "v3"] s).
Proof.
  intros Ht Hc Hv. unfold _get_youtube_service. monad_unfold. cbn.
  rewrite Ht. cbn. rewrite Hc. cbn. rewrite Hv. cbn.
  destruct (build w); apply f_equal2; try reflexivity; state_eq.
Qed.

Lemma valid_token_needs_no_login_witness :
  _get_youtube_service w_primary (initial [] [])
  = (Ok tt, add_calls [Path_exists "token.json"; Credentials_from_file "token.json";
                       Discovery_build "youtube" "v3"] (initial [] [])).
Proof. apply (valid_token_needs_no_login w_primary (initial [] []) valid_creds); reflexivity. Defined.

Ltac auth_leaf :=
  eexists _, _; (split; [outcome_eq|]); cbn;
  (split; [lia|]); (split; [lia|]);
  split;
  [ first [ intros H; discriminate H
          | intros _; left; split; reflexivity
          | intros _; right; split; reflexivity ]
  | first [ intros H; discriminate H
          | intros _; split; [reflexivity|];
            eexists; split; [reflexivity|]; repeat split; assumption ] ].

(** X18.  Whatever the collaborators do, obtaining the YouTube service
    refreshes the token or runs the login flow at most once, never
    both; it writes the token file only after one of the two, so never
    when the refresh or the login raised; and it refreshes only a saved
    token that is invalid, expired and has a refresh token. *)
Theorem login_at_most_once w s :
  exists r calls,
    _get_youtube_service w s = (r, add_calls calls s)
    /\ count_calls is_refresh calls + count_calls is_login calls <= 1
    /\ count_calls is_token_write calls
       <= count_calls is_refresh calls + count_calls is_login calls
    /\ (count_calls is_token_write calls = 1 ->
        (count_calls is_refresh calls = 1 /\ refresh w = Ok tt)
        \/ (count_calls is_login calls = 1 /\ is_ok (run_local_server w) = true))
    /\ (count_calls is_refresh calls = 1 ->
        token_exists w = true
        /\ exists c, from_authorized_user_file w = Ok c
                     /\ valid c = false /\ expired c = true
                     /\ py_not (refresh_token c) = false).
Proof.
  unfold _get_youtube_service, run_flow. monad_unfold. cbn.
  destruct (token_exists w) eqn:Htok; cbn.
  - destruct (from_authorized_user_file w) as [c|] eqn:Hfile; cbn; [|auth_leaf].
    destruct (valid c) eqn:Hvalid; cbn.
    { destruct (build w); auth_leaf. }
    destruct (expired c && negb (py_not (refresh_token c))) eqn:Hexp; cbn.
    + apply andb_true_iff in Hexp as [Hexp Href]. apply negb_true_iff in Href.
      destruct (refresh w) as [[]|]; cbn; [|auth_leaf].
      destruct (token_write w); cbn; [|auth_leaf].
      destruct (build w); auth_leaf.
    + destruct (from_client_secrets_file w); cbn; [|auth_leaf].
      destruct (run_local_server w); cbn; [|auth_leaf].
      destruct (token_write w); cbn; [|auth_leaf].
      destruct (build w); auth_leaf.
  - destruct (from_client_secrets_file w); cbn; [|auth_leaf].
    destruct (run_local_server w); cbn; [|auth_leaf].
    destruct (token_write w); cbn; [|auth_leaf].
    destruct (build w); auth_leaf.
Qed.

(** A refresh that fails leaves the token file alone and ends
    construction with the error of the refresh. *)
Example failed_refresh_keeps_token_file :
  __init__ w_refresh_fails (initial [] [])
  = (Raise (OtherError "invalid_grant"),
     add_calls [Path_exists "token.json"; Credentials_from_file "token.json";
                Credentials_refresh] (initial [] [])).
Proof. reflexivity. Qed.

(** X19.  Construction returns only when the three environment values
    are set and not empty; the calls it has made are then the
    authentication calls followed by the construction of the store-A
    client and of the store-B client, in that order, with those values. *)
Theorem construction_needs_environment w s s' :
  __init__ w s = (Ok tt, s') ->
  py_not (MONGO_URI w) = false
  /\ py_not (SUPABASE_URL w) = false
  /\ py_not (SUPABASE_KEY w) = false
  /\ exists auth,
       forallb is_auth_call auth = true
       /\ s' = add_calls (auth ++ [MongoClient_new (default "" (MONGO_URI w));
                                   Supabase_create_client (default "" (SUPABASE_URL w))
                                     (default "" (SUPABASE_KEY w))]) s.
Proof.
  unfold __init__, _setup_mongo_client, _setup_supabase_client. monad_unfold.
  destruct (auth_frame w s) as (r & auth & Hauth & Hcalls). rewrite Hauth.
  destruct r as [[]|]; [|discriminate].
  destruct (py_not (MONGO_URI w)); [discriminate|].
  destruct (new_MongoClient w (default "" (MONGO_URI w))) as [[]|]; cbn; [|discriminate].
  destruct (py_not (SUPABASE_URL w)); cbn; [discriminate|].
  destruct (py_not (SUPABASE_KEY w)); cbn; [discriminate|].
  destruct (create_client w (default "" (SUPABASE_URL w)) (default "" (SUPABASE_KEY w)))
    as [[]|]; cbn; [|discriminate].
  intros [= <-]. repeat split. exists auth. split; [exact Hcalls|]. state_eq.
Qed.

Lemma construction_needs_environment_witness :
  py_not (MONGO_URI w_primary) = false
  /\ py_not (SUPABASE_URL w_primary) = false
  /\ py_not (SUPABASE_KEY w_primary) = false
  /\ exists auth,
       forallb is_auth_call auth = true
       /\ add_calls [Path_exists "token.json"; Credentials_from_file "token.json";
                     Discovery_build "youtube" "v3"; MongoClient_new "mongodb://db";
                     Supabase_create_client "https://sb" "key"] (initial [] [])
          = add_calls (auth ++ [MongoClient_new (default "" (MONGO_URI w_primary));
                                Supabase_create_client (default "" (SUPABASE_URL w_primary))
                                  (default "" (SUPABASE_KEY w_primary))]) (initial [] []).
Proof.
  apply (construction_needs_environment w_primary (initial [] [])). reflexivity.
Defined.

Lemma run_returns w s : fst (run w s) = Ok tt.
Proof.
  unfold run, try_except. destruct (run_body w s) as [[[]|e] s1]; [reflexivity|].
  now rewrite run_handler_logs.
Qed.

(** X20.  The script's exit status depends on construction alone: it is
    1 exactly when [__init__] raises, in which case [run] is not
    entered and nothing is listed, and 0 otherwise, whatever happens
    during the run. *)
Theorem script_exit_status w s :
  exit_code (fst (main w s)) = exit_code (fst (__init__ w s))
  /\ (forall e s', __init__ w s = (Raise e, s') -> main w s = (Raise e, s'))
  /\ (forall s', __init__ w s = (Ok tt, s') -> main w s = run w s').
Proof.
  unfold main, bind. destruct (__init__ w s) as [[[]|e] s'] eqn:E.
  - repeat split.
    + cbn. now rewrite run_returns.
    + intros ? ? [=].
    + now intros ? [= <-].
  - repeat split.
    + now intros ? ? [= <- <-].
    + intros ? [=].
Qed.

(** X21.  In a run, a store-B query that fails on the first item ends
    the run there: the [AttributeError] raised by the check's handler
    is printed by the second handler of [run], the item is not written
    and the items after it are not looked at, whether or not store A
    holds the first one. *)
Theorem store_b_failure_ends_run w s resp item rest video_id e :
  videos_list_execute w "snippet" "like" 50 = Ok resp ->
  default [] (items resp) = item :: rest ->
  it_id item = Some video_id ->
  store_fault w (length (trace s ++ [listing])) (Mongo_find_one "video_id" video_id) = None ->
  store_fault w (S (length (trace s ++ [listing])))
    (Supabase_select supabase_table "video_id" "video_id" video_id) = Some e ->
  run w s
  = (Ok tt,
     add_log [found_line (item :: rest);
              "An unexpected error occurred: type object 'ClientOptions' has no attribute 'APIError'"]
       (add_calls (Videos_list "snippet" "like" 50 :: check_calls video_id) s)).
Proof.
  intros Hlist Hpage Hid Ha Hb. unfold run, try_except, run_body. monad_unfold.
  rewrite Hlist. cbn. rewrite Hpage. cbn [for_each]. unfold bind.
  unfold process_item at 1. monad_unfold. rewrite Hid. cbn.
  match goal with
  | |- context [_check_if_video_exists w video_id ?S] =>
      rewrite (check_store_b_fails w video_id S e Ha Hb)
  end.
  rewrite run_handler_logs. apply f_equal2; [reflexivity | state_eq].
Qed.

Lemma store_b_failure_ends_run_witness :
  run w_store_b_down s_with_old
  = (Ok tt,
     add_log ["Found 2 liked videos to process.";
              "An unexpected error occurred: type object 'ClientOptions' has no attribute 'APIError'"]
       (add_calls (Videos_list "snippet" "like" 50 :: check_calls "old") s_with_old)).
Proof.
  apply (store_b_failure_ends_run w_store_b_down s_with_old
           {| items := Some [item "old" "Old video" "2024-01-01T00:00:00Z";
                             item "new" "New video" "2024-02-01T00:00:00Z"] |}
           (item "old" "Old video" "2024-01-01T00:00:00Z")
           [item "new" "New video" "2024-02-01T00:00:00Z"] "old" (APIError "JWT expired"));
    reflexivity.
Defined.
